(** * TrainTrack: configuration resolution and staged submission

    A shallow embedding of [traintrack/utils/config_utils.py],
    [traintrack/utils/data_utils.py], [traintrack/utils/model_utils.py]
    and [traintrack/utils/logging_utils.py], the properties of the
    configuration engine that the specification states about them, and
    further properties read off the code.

    Python objects are embedded as a first-order [value] type, Python
    dictionaries as insertion-ordered association lists, raised
    exceptions as the [Err] branch of a small error monad.  The file
    system, the YAML reader, the checkpoint loader, the scheduler
    client, the module importer and the logger classes are outside the
    repository: they are Section variables. *)

From Stdlib Require Import List String Ascii ZArith Bool Arith Lia.
From Stdlib Require Import DecimalString.
From Stdlib Require DecimalPos.
Import ListNotations.

Local Open Scope string_scope.
Local Open Scope list_scope.

(** ** Python values *)

(** The objects a configuration holds after YAML parsing.  A float is
    carried by its [repr], the shortest string that reads back as the
    same float; no claim computes with floats. *)
#[warnings="-register-all"] Inductive value : Type :=
| VNone
| VBool (b : bool)
| VInt (z : Z)
| VFloat (repr : string)
| VStr (s : string)
| VList (l : list value)
| VDict (d : list (string * value)).

(** A [dict]: bindings in insertion order.  Python keeps keys unique;
    [dict_wf] states it. *)
Definition dict : Type := list (string * value).

Definition keys (d : dict) : list string := map fst d.
Definition values (d : dict) : list value := map snd d.
Definition dict_wf (d : dict) : Prop := NoDup (keys d).

(** ** Exceptions *)

(** An exception is identified by the name of its class. *)
Inductive exn : Type := Raise (cls : string).

Definition KeyError : exn := Raise "KeyError".
Definition TypeError : exn := Raise "TypeError".
Definition ValueError : exn := Raise "ValueError".
Definition AttributeError : exn := Raise "AttributeError".
Definition CheckpointNotFound : exn := Raise "CheckpointNotFound".

Inductive result (A : Type) : Type :=
| Ok (a : A)
| Err (e : exn).
Arguments Ok {A} a.
Arguments Err {A} e.

Definition bind {A B : Type} (m : result A) (f : A -> result B) : result B :=
  match m with
  | Ok a => f a
  | Err e => Err e
  end.

Declare Scope py_scope.
Delimit Scope py_scope with py.
Notation "x <- m ;; k" := (bind m (fun x => k))
  (at level 61, m at next level, right associativity) : py_scope.
Notation "' p <- m ;; k" := (bind m (fun x => match x with p => k end))
  (at level 61, p pattern, m at next level, right associativity) : py_scope.
Local Open Scope py_scope.

(** ** Dictionary operations *)

(** [d.get(k)] *)
Fixpoint dict_get (k : string) (d : dict) : option value :=
  match d with
  | [] => None
  | (k', v) :: rest => if String.eqb k k' then Some v else dict_get k rest
  end.

(** [k in d] *)
Definition dict_in (k : string) (d : dict) : bool :=
  match dict_get k d with Some _ => true | None => false end.

(** [d[k]] *)
Definition getitem (d : dict) (k : string) : result value :=
  match dict_get k d with
  | Some v => Ok v
  | None => Err KeyError
  end.

(** [d[k] = v]: an existing key keeps its place, a new key goes last. *)
Fixpoint dict_set (k : string) (v : value) (d : dict) : dict :=
  match d with
  | [] => [(k, v)]
  | (k', v') :: rest =>
      if String.eqb k k' then (k, v) :: rest else (k', v') :: dict_set k v rest
  end.

(** [d.update(other)]: one [d[k] = v] per binding of [other], in order. *)
Definition dict_update (d other : dict) : dict :=
  fold_left (fun acc kv => dict_set (fst kv) (snd kv) acc) other d.

(** [dict(pairs)] *)
Definition dict_of_pairs (pairs : list (string * value)) : dict :=
  dict_update [] pairs.

(** Truth value of an object, as [if v:], [not v] and [and] test it. *)
Definition truthy (v : value) : bool :=
  match v with
  | VNone => false
  | VBool b => b
  | VInt z => negb (Z.eqb z 0)
  | VFloat r => negb (String.eqb r "0.0" || String.eqb r "-0.0")
  | VStr s => negb (String.eqb s "")
  | VList l => match l with [] => false | _ => true end
  | VDict d => match d with [] => false | _ => true end
  end.

(** ** Strings of values: [str] and [repr] *)

Definition quote1 : ascii := ascii_of_nat 39.
Definition quote2 : ascii := ascii_of_nat 34.
Definition backslash : ascii := ascii_of_nat 92.

Definition str1 (c : ascii) : string := String c EmptyString.

Definition has_char (c : ascii) (s : string) : bool :=
  existsb (Ascii.eqb c) (list_ascii_of_string s).

Definition hex_digit (n : nat) : ascii :=
  if (n <? 10)%nat then ascii_of_nat (48 + n) else ascii_of_nat (87 + n).

(** One character of [repr(s)] for a string delimited by [q].  Bytes
    above 127 belong to printable characters and stay as they are. *)
Definition repr_char (q c : ascii) : string :=
  let n := nat_of_ascii c in
  if Ascii.eqb c q || Ascii.eqb c backslash then String backslash (str1 c)
  else if (n =? 9)%nat then String backslash "t"
  else if (n =? 10)%nat then String backslash "n"
  else if (n =? 13)%nat then String backslash "r"
  else if ((n <? 32) || (n =? 127))%nat then
    String backslash (String "x" (String (hex_digit (n / 16)) (str1 (hex_digit (n mod 16)))))
  else str1 c.

(** [repr(s)] for a string: single quotes, unless the string holds a
    single quote and no double quote. *)
Definition repr_str (s : string) : string :=
  let q := if has_char quote1 s && negb (has_char quote2 s)
           then quote2 else quote1 in
  (String q (String.concat "" (map (repr_char q) (list_ascii_of_string s)))
   ++ str1 q)%string.

Definition str_of_Z (z : Z) : string := NilZero.string_of_int (Z.to_int z).

(** [repr(v)] *)
Fixpoint py_repr (v : value) : string :=
  match v with
  | VNone => "None"
  | VBool true => "True"
  | VBool false => "False"
  | VInt z => str_of_Z z
  | VFloat r => r
  | VStr s => repr_str s
  | VList l => ("[" ++ String.concat ", " (map py_repr l) ++ "]")%string
  | VDict d =>
      ("{" ++ String.concat ", "
                (map (fun kv => let '(k, x) := kv in
                                repr_str k ++ ": " ++ py_repr x) d)
           ++ "}")%string
  end.

(** [str(v)] *)
Definition py_str (v : value) : string :=
  match v with
  | VStr s => s
  | _ => py_repr v
  end.

(** ** [int(s)] on a string *)

Definition is_space (c : ascii) : bool :=
  let n := nat_of_ascii c in
  ((n =? 32) || ((9 <=? n) && (n <=? 13)) || ((28 <=? n) && (n <=? 31)))%nat.

Definition is_digit (c : ascii) : bool :=
  let n := nat_of_ascii c in ((48 <=? n) && (n <=? 57))%nat.

Fixpoint lstrip (cs : list ascii) : list ascii :=
  match cs with
  | c :: rest => if is_space c then lstrip rest else cs
  | [] => []
  end.

Definition strip (cs : list ascii) : list ascii :=
  rev (lstrip (rev (lstrip cs))).

(** Decimal digits, a single underscore allowed between two digits.
    [after_digit] tells whether the previous character was a digit. *)
Fixpoint int_digits (cs : list ascii) (acc : Z) (after_digit : bool) : option Z :=
  match cs with
  | [] => if after_digit then Some acc else None
  | c :: rest =>
      if is_digit c
      then int_digits rest (10 * acc + Z.of_nat (nat_of_ascii c - 48))%Z true
      else if Ascii.eqb c "_" && after_digit then int_digits rest acc false
      else None
  end.

(** [int(s)] on ASCII text: surrounding white space, an optional
    sign, digits.  [None] stands for [ValueError]. *)
Definition py_int (s : string) : option Z :=
  match strip (list_ascii_of_string s) with
  | "+"%char :: rest => int_digits rest 0 false
  | "-"%char :: rest => option_map Z.opp (int_digits rest 0 false)
  | cs => int_digits cs 0 false
  end.

(** [sep.join(parts)] *)
Definition str_join (sep : string) (parts : list string) : string :=
  String.concat sep parts.

(** * [config_utils.py] *)

(** ** [handle_config_cases] *)

Definition handle_config_cases (some_config : value) : list value :=
  match some_config with
  | VList l => l
  | VNone => []
  | _ => [some_config]
  end.

(** ** [combo_config] *)

(** [v if type(v) == list else [v]] *)
Definition axis (v : value) : list value :=
  match v with
  | VList l => l
  | _ => [v]
  end.

(** The comprehension [{k: ... for (k, v) in config.items()}]; its
    values are lists, kept here as Rocq lists. *)
Definition total_list (config : dict) : list (string * list value) :=
  map (fun kv => (fst kv, axis (snd kv))) config.

(** [keys, values = zip] of the unpacked items: with no item [zip] yields nothing and
    the unpacking into two names raises [ValueError]; with at least one
    item it yields the tuple of keys and the tuple of values. *)
Definition unzip_items {A B : Type} (items : list (A * B)) : result (list A * list B) :=
  match items with
  | [] => Err ValueError
  | _ :: _ => Ok (map fst items, map snd items)
  end.

(** [itertools.product] of the pools, as its documentation defines it:
    [result = [[]]], then for each pool
    [result = [x + [y] for x in result for y in pool]]. *)
Definition product {A : Type} (pools : list (list A)) : list (list A) :=
  fold_left
    (fun result pool => flat_map (fun x => map (fun y => x ++ [y]) pool) result)
    pools [[]].

(** The same product by recursion on the pools: the first pool is the
    outermost loop. *)
Fixpoint cartesian {A : Type} (pools : list (list A)) : list (list A) :=
  match pools with
  | [] => [[]]
  | pool :: rest => flat_map (fun y => map (cons y) (cartesian rest)) pool
  end.

Definition combo_config (config : dict) : result (list dict) :=
  ' (keys, values) <- unzip_items (total_list config) ;;
  Ok (map (fun bundle => dict_of_pairs (combine keys bundle)) (product values)).

(** The expansion as the specification words it: the cartesian product
    over the keys' axes, the first key outermost, each axis in its
    listed order, every output holding every key. *)
Fixpoint sweep_spec (config : dict) : list dict :=
  match config with
  | [] => [[]]
  | (k, v) :: rest =>
      flat_map (fun x => map (cons (k, x)) (sweep_spec rest)) (axis v)
  end.

(** ** [dict_to_args] *)

(** [more_itertools.collapse]: every iterable that is not a string is
    walked, depth first; iterating a dictionary gives its keys. *)
Fixpoint collapse (node : value) : list value :=
  match node with
  | VList l => flat_map collapse l
  | VDict d => map (fun kv => VStr (fst kv)) d
  | _ => [node]
  end.

(** The list of tokens, before [" ".join]. *)
Definition arg_tokens (config : dict) : list string :=
  let collapsed_list :=
    collapse (VList (map (fun kv => VList [VStr ("--" ++ fst kv); snd kv]) config)) in
  map py_str collapsed_list.

Definition dict_to_args (config : dict) : string :=
  str_join " " (arg_tokens config).

(** The tokens as the specification words them: the flag, then one
    token per element of a list value, one token for any other value. *)
Definition arg_tokens_spec (config : dict) : list string :=
  flat_map (fun kv => ("--" ++ fst kv)%string :: map py_str (axis (snd kv))) config.

(** A value that [collapse] leaves whole. *)
Definition is_leaf (v : value) : bool :=
  match v with
  | VList _ | VDict _ => false
  | _ => true
  end.

(** A value the serializer maps to the tokens of the specification: a
    leaf, or a list of leaves. *)
Definition is_flat (v : value) : bool :=
  match v with
  | VList l => forallb is_leaf l
  | VDict _ => false
  | _ => true
  end.

(** ** The file system, as [os.walk] sees it *)

(** A directory: its subdirectories and its plain files, in the order
    the system lists them.  Links are not followed. *)
#[warnings="-register-all"] Inductive tree : Type :=
| Dir (subdirs : list (string * tree)) (files : list string).

Definition starts_with_sep (s : string) : bool :=
  match s with
  | String c _ => Ascii.eqb c "/"
  | EmptyString => false
  end.

Fixpoint ends_with_sep (s : string) : bool :=
  match s with
  | EmptyString => false
  | String c EmptyString => Ascii.eqb c "/"
  | String _ rest => ends_with_sep rest
  end.

(** [os.path.join(a, *p)] (posix). *)
Definition os_path_join (a : string) (p : list string) : string :=
  fold_left
    (fun path b =>
       if starts_with_sep b then b
       else if String.eqb path "" || ends_with_sep path then (path ++ b)%string
       else (path ++ "/" ++ b)%string)
    p a.

(** The triples [(root, dirs, files)] of [os.walk(top)], top down. *)
Fixpoint walk (top : string) (t : tree) : list (string * list string * list string) :=
  match t with
  | Dir subdirs files =>
      (top, map fst subdirs, files)
      :: flat_map (fun nt => let '(name, sub) := nt in
                             walk (os_path_join top [name]) sub) subdirs
  end.

Definition mem (x : string) (l : list string) : bool :=
  existsb (String.eqb x) l.

Section ConfigUtils.

(** The directory found at a path, if there is one. *)
Variable fs : string -> option tree.

(** [open(path)], [os.path.expandvars] and [yaml.load] together; the
    path is [None] when the file was not found. *)
Variable read_yaml : option string -> result value.

(** [open(path)] and [yaml.load] of the batch configuration. *)
Variable read_batch_yaml : value -> result value.

(** [torch.load(path, map_location=...)] *)
Variable torch_load : option string -> result value.

(** [os.walk(path)]: nothing when [path] is no directory. *)
Definition os_walk (path : string) : list (string * list string * list string) :=
  match fs path with
  | Some t => walk path t
  | None => []
  end.

(** ** [find_checkpoint] *)

Definition find_checkpoint (run_id path : string) : option string :=
  match find (fun triple => mem run_id (snd (fst triple))) (os_walk path) with
  | Some (root_dir, _, _) =>
      Some (os_path_join root_dir [run_id; "checkpoints/last.ckpt"])
  | None => None
  end.

(** ** [find_config] *)

Definition find_config (name path : string) : option string :=
  match find (fun triple => mem name (snd triple)) (os_walk path) with
  | Some (root, _, _) => Some (os_path_join root [name])
  | None => None
  end.

(** ** Subscripts, attributes and conversions that can raise *)

(** [v[k]] with a string [k] *)
Definition subscript (v : value) (k : string) : result value :=
  match v with
  | VDict d => getitem d k
  | _ => Err TypeError
  end.

(** [v[k] = x] with a string [k] *)
Definition setitem (v : value) (k : string) (x : value) : result dict :=
  match v with
  | VDict d => Ok (dict_set k x d)
  | _ => Err TypeError
  end.

(** A path argument: anything but a string is refused. *)
Definition as_str (v : value) : result string :=
  match v with
  | VStr s => Ok s
  | _ => Err TypeError
  end.

(** The argument of [update] and of a double-star call.  The override
    of a stage, the libraries of the project and the batch
    configuration are mappings; dictionaries have string keys here, so
    the iterables of pairs that [update] would also take are left out
    and anything but a mapping raises [TypeError]. *)
Definition as_mapping (v : value) : result dict :=
  match v with
  | VDict d => Ok d
  | _ => Err TypeError
  end.

(** [ns.name] on an [argparse.Namespace], kept as its attribute dictionary *)
Definition getattr (ns : dict) (name : string) : result value :=
  match dict_get name ns with
  | Some v => Ok v
  | None => Err AttributeError
  end.

Definition opt_str (p : option string) : value :=
  match p with
  | Some s => VStr s
  | None => VNone
  end.

Fixpoint mapM {A B : Type} (f : A -> result B) (l : list A) : result (list B) :=
  match l with
  | [] => Ok []
  | a :: rest => b <- f a ;; bs <- mapM f rest ;; Ok (b :: bs)
  end.

(** ** [load_config] *)

(** Lines 135-152: the base configuration, from the file of the stage
    or from the checkpoint of the run that is resumed. *)
Definition load_base (stage : dict) (resume_id : option string)
    (project_config : dict) : result dict :=
  match resume_id with
  | None =>
      name <- getitem stage "config" ;;
      libraries <- getitem project_config "libraries" ;;
      model_library <- subscript libraries "model_library" ;;
      set_name <- getitem stage "set" ;;
      a <- as_str model_library ;;
      b <- as_str set_name ;;
      let stage_config_file :=
        match name with
        | VStr n => find_config n (os_path_join a [b])
        | _ => None
        end in
      config <- read_yaml stage_config_file ;;
      logger <- getitem project_config "logger" ;;
      config <- setitem config "logger" logger ;;
      Ok (dict_set "resume_id" VNone config)
  | Some run_id =>
      libraries <- getitem project_config "libraries" ;;
      artifact_library <- subscript libraries "artifact_library" ;;
      path <- as_str artifact_library ;;
      let ckpnt_path := find_checkpoint run_id path in
      ckpnt <- torch_load ckpnt_path ;;
      config <- subscript ckpnt "hyper_parameters" ;;
      setitem config "checkpoint_path" (opt_str ckpnt_path)
  end.

(** Lines 154-159: the three [update] calls. *)
Definition merge_layers (config stage project_config : dict) : result dict :=
  config <- match dict_get "override" stage with
            | Some override =>
                o <- as_mapping override ;; Ok (dict_update config o)
            | None => Ok config
            end ;;
  libraries <- getitem project_config "libraries" ;;
  libs <- as_mapping libraries ;;
  let config := dict_update config libs in
  Ok (dict_update config (stage : dict)).

(** Lines 160-165: the inference flag. *)
Definition inference_policy (config run_args : dict) : result dict :=
  match dict_get "inference" run_args with
  | Some inference =>
      if truthy inference then Ok (dict_set "inference" (VBool true) config)
      else
        batch <- getattr run_args "batch" ;;
        if negb (truthy batch) then Ok (dict_set "inference" (VBool false) config)
        else Ok config
  | None => Ok config
  end.

Definition load_config (stage : dict) (resume_id : option string)
    (project_config run_args : dict) : result dict :=
  config <- load_base stage resume_id project_config ;;
  config <- merge_layers config stage project_config ;;
  inference_policy config run_args.

(** The value a key has after a sequence of layers, each written over
    the ones before: the specification's last-writer-wins rule. *)
Definition last_writer (k : string) (layers : list dict) : option value :=
  fold_left
    (fun found layer =>
       match dict_get k layer with
       | Some v => Some v
       | None => found
       end)
    layers None.

(** The mapping under the stage's [override] key, empty when the key is absent. *)
Definition override_layer (stage : dict) : dict :=
  match dict_get "override" stage with
  | Some (VDict o) => o
  | _ => []
  end.

(** ** [submit_batch] *)

(** The scheduler client: the options it was built with and the
    dependency declared on it, if any. *)
Record Slurm : Type := {
  kwargs : dict;
  dependency : option dict
}.

Definition Slurm_new (kw : dict) : Slurm :=
  {| kwargs := kw; dependency := None |}.

Definition set_dependency (slurm : Slurm) (d : dict) : Slurm :=
  {| kwargs := kwargs slurm; dependency := Some d |}.

(** One call of [slurm.sbatch(run_cmd, sbatch_cmd=..., shell=...)]. *)
Record sbatch_call : Type := {
  client : Slurm;
  run_cmd : string;
  sbatch_cmd : string;
  shell : string
}.

(** The scheduler: a job handle, or a refusal. *)
Variable sbatch : sbatch_call -> result value.

Definition newline : string := str1 (ascii_of_nat 10).

Definition is_None (v : value) : bool :=
  match v with
  | VNone => true
  | _ => false
  end.

(** The strings [sep.join(v)] iterates over. *)
Definition join_items (v : value) : result (list string) :=
  match v with
  | VList l => mapM as_str l
  | VStr s => Ok (map str1 (list_ascii_of_string s))
  | VDict d => Ok (keys d)
  | _ => Err TypeError
  end.

(** [len(v)] *)
Definition py_len (v : value) : result nat :=
  match v with
  | VList l => Ok (List.length l)
  | VStr s => Ok (String.length s)
  | VDict d => Ok (List.length d)
  | _ => Err TypeError
  end.

(** [v + ["sbatch"]] *)
Definition add_sbatch (v : value) : result value :=
  match v with
  | VList l => Ok (VList (l ++ [VStr "sbatch"]))
  | _ => Err TypeError
  end.

(** Lines 75-77: the dependency on the previous job. *)
Definition declare_dependency (slurm : Slurm) (project_config : dict)
    (running_id : value) : result Slurm :=
  if negb (is_None running_id) then
    serial <- getitem project_config "serial" ;;
    if truthy serial
    then Ok (set_dependency slurm [("afterok", running_id)])
    else Ok slurm
  else Ok slurm.

(** Lines 87-94: the command that runs [sbatch]. *)
Definition sbatch_setup (config project_config : dict) : result string :=
  match dict_get "batch_setup" config with
  | Some batch_setup =>
      if truthy batch_setup then
        command_line_setup <- getitem project_config "command_line_setup" ;;
        n <- py_len command_line_setup ;;
        if (0 <? n)%nat then
          cmds <- add_sbatch command_line_setup ;;
          parts <- join_items cmds ;;
          Ok (str_join ";" parts)
        else Ok "sbatch"
      else Ok "sbatch"
  | None => Ok "sbatch"
  end.

(** Everything [submit_batch] does before it calls the scheduler. *)
Definition submit_batch_call (config project_config : dict) (running_id : value)
  : result sbatch_call :=
  path <- getitem config "batch_config" ;;
  batch_config <- read_batch_yaml path ;;
  let command_line_args := dict_to_args config in
  kw <- as_mapping batch_config ;;
  let slurm := Slurm_new kw in
  slurm <- declare_dependency slurm project_config running_id ;;
  custom_batch_setup <- getitem project_config "custom_batch_setup" ;;
  lines <- join_items custom_batch_setup ;;
  let slurm_command :=
    (str_join newline lines ++ newline ++ " ttbatch " ++ command_line_args)%string in
  slurm_setup <- sbatch_setup config project_config ;;
  Ok {| client := slurm; run_cmd := slurm_command;
        sbatch_cmd := slurm_setup; shell := "/bin/bash" |}.

Definition submit_batch (config project_config : dict) (running_id : value)
  : result value :=
  call <- submit_batch_call config project_config running_id ;;
  sbatch call.

End ConfigUtils.

(** * [data_utils.py] *)

Definition boolify (s : string) : result value :=
  if String.eqb s "True" || String.eqb s "true" then Ok (VBool true)
  else if String.eqb s "False" || String.eqb s "false" then Ok (VBool false)
  else Err ValueError.

Definition nullify (s : string) : result value :=
  if String.eqb s "None" || String.eqb s "none" then Ok VNone
  else Err ValueError.

Section DataUtils.

(** [float(s)] on a string, the float carried by its [repr]; [None]
    stands for [ValueError]. *)
Variable py_float : string -> option string.

Definition int_caster (s : string) : result value :=
  match py_int s with
  | Some z => Ok (VInt z)
  | None => Err ValueError
  end.

Definition float_caster (s : string) : result value :=
  match py_float s with
  | Some r => Ok (VFloat r)
  | None => Err ValueError
  end.

(** The loop over the casters: the first one that does not raise
    [ValueError] gives the result, and the string itself is returned
    when all of them raise. *)
Fixpoint try_casters (casters : list (string -> result value)) (var : string) : value :=
  match casters with
  | [] => VStr var
  | caster :: rest =>
      match caster var with
      | Ok v => v
      | Err _ => try_casters rest var
      end
  end.

Fixpoint estimateType (var : value) : value :=
  match var with
  | VList [x] => estimateType x
  | VList l => VList (map estimateType l)
  | _ => try_casters [nullify; boolify; int_caster; float_caster] (py_str var)
  end.

(** [autocast(dFxn)] called with positional arguments [c] and keyword
    arguments [d]. *)
Definition autocast {R : Type} (dFxn : list value -> dict -> R)
    (c : list value) (d : dict) : R :=
  let cp := map estimateType c in
  let dp := dict_of_pairs (map (fun ij => (fst ij, estimateType (snd ij))) d) in
  dFxn cp dp.

End DataUtils.

(** The shape the claim about singleton lists speaks of. *)
Definition is_list (v : value) : bool :=
  match v with
  | VList _ => true
  | _ => false
  end.

Definition is_singleton_list (v : value) : bool :=
  match v with
  | VList [_] => true
  | _ => false
  end.


(** * Sample inputs *)

(** A library that holds the run directory and nothing inside it. *)
Definition artifacts_fs (path : string) : option tree :=
  if String.eqb path "/artifacts"
  then Some (Dir [("other", Dir [] ["notes.txt"]); ("run123", Dir [] [])] [])
  else None.

(** A model library with one configuration file and an artifact
    library with one finished run. *)
Definition sample_fs (path : string) : option tree :=
  if String.eqb path "/models/gnn"
  then Some (Dir [("configs", Dir [] ["train.yaml"])] ["README.md"])
  else if String.eqb path "/artifacts"
  then Some (Dir [("run123", Dir [("checkpoints", Dir [] ["last.ckpt"])] [])] [])
  else None.

Definition sample_read_yaml (path : option string) : result value :=
  match path with
  | Some p =>
      if String.eqb p "/models/gnn/configs/train.yaml"
      then Ok (VDict [("lr", VFloat "0.001"); ("inference", VBool false);
                      ("logger", VStr "tb")])
      else Err (Raise "FileNotFoundError")
  | None => Err TypeError
  end.

(** A loader that behaves as [torch.load] does on the path [None]: it
    finds no [seek] on it and raises [AttributeError]. *)
Definition sample_torch_load (path : option string) : result value :=
  match path with
  | Some p =>
      if String.eqb p "/artifacts/run123/checkpoints/last.ckpt"
      then Ok (VDict [("hyper_parameters",
                       VDict [("lr", VFloat "0.001"); ("set", VStr "old")])])
      else Err (Raise "FileNotFoundError")
  | None => Err AttributeError
  end.

Definition sample_libraries : dict :=
  [("model_library", VStr "/models"); ("artifact_library", VStr "/artifacts")].

Definition sample_project_config : dict :=
  [("libraries", VDict sample_libraries);
   ("logger", VStr "wandb");
   ("serial", VBool true);
   ("custom_batch_setup", VList [VStr "module load cuda"]);
   ("command_line_setup", VList [])].

Definition sample_stage : dict :=
  [("set", VStr "gnn");
   ("config", VStr "train.yaml");
   ("override", VDict [("lr", VFloat "0.01")]);
   ("batch_config", VStr "batch.yaml")].

Definition sample_run_args : dict :=
  [("inference", VBool true); ("batch", VBool false)].

(** The base configuration of the sample stage: the file's mapping
    with [logger] and [resume_id] set. *)
Definition sample_base : dict :=
  [("lr", VFloat "0.001"); ("inference", VBool false);
   ("logger", VStr "wandb"); ("resume_id", VNone)].

Definition sample_merged : dict :=
  dict_update
    (dict_update (dict_update sample_base (override_layer sample_stage))
                 sample_libraries)
    sample_stage.

(** A decidable form of [dict_wf]. *)
Fixpoint keys_distinct (ks : list string) : bool :=
  match ks with
  | [] => true
  | k :: rest => negb (mem k rest) && keys_distinct rest
  end.

Definition sample_read_batch_yaml (path : value) : result value :=
  match path with
  | VStr p =>
      if String.eqb p "batch.yaml"
      then Ok (VDict [("time", VStr "01:00:00"); ("gpus", VInt 1)])
      else Err (Raise "FileNotFoundError")
  | _ => Err TypeError
  end.

Definition sample_run : dict :=
  [("batch_config", VStr "batch.yaml"); ("lr", VFloat "0.01")].

(** * [model_utils.py] *)

Definition UnboundLocalError : exn := Raise "UnboundLocalError".

(** [s.endswith(suffix)] and [s.startswith(prefix)] *)
Definition str_endswith (s suffix : string) : bool :=
  let n := String.length s in
  let m := String.length suffix in
  (m <=? n)%nat && String.eqb (substring (n - m) m s) suffix.

Definition str_startswith (s prefix : string) : bool :=
  String.prefix prefix s.

(** [p.rfind(c)], [None] for -1 *)
Fixpoint rfind_from (c : ascii) (cs : list ascii) (i : nat) (last : option nat)
  : option nat :=
  match cs with
  | [] => last
  | x :: rest => rfind_from c rest (S i) (if Ascii.eqb x c then Some i else last)
  end.

Definition rfind (c : ascii) (cs : list ascii) : option nat :=
  rfind_from c cs 0 None.

(** [os.path.splitext(p)[0]] (posix): the extension starts at the last
    dot, unless that dot comes before the last separator or only dots
    stand between the separator and it. *)
Definition splitext_root (p : string) : string :=
  let cs := list_ascii_of_string p in
  match rfind "." cs with
  | None => p
  | Some dotIndex =>
      let filenameIndex :=
        match rfind "/" cs with
        | Some sepIndex => S sepIndex
        | None => 0
        end in
      if (filenameIndex <=? dotIndex)%nat
         && existsb (fun c => negb (Ascii.eqb c "."))
                    (firstn (dotIndex - filenameIndex) (skipn filenameIndex cs))
      then string_of_list_ascii (firstn dotIndex cs)
      else p
  end.

(** [v == s] for a string literal [s] *)
Definition eq_str (v : value) (s : string) : bool :=
  match v with
  | VStr s' => String.eqb s' s
  | _ => false
  end.

(** ** [get_resume_id] *)

Definition get_resume_id (stage : dict) : value :=
  match dict_get "resume_id" stage with
  | Some resume_id => resume_id
  | None => VNone
  end.

Section ModelUtils.

(** The objects that modules export and that calls return. *)
Variable Obj : Type.

(** An imported module: its [__all__], when it defines one, and its
    attributes. *)
Record py_module : Type := {
  mod_all : option (list string);
  mod_attrs : list (string * Obj)
}.

(** [os.listdir(path)] *)
Variable listdir : string -> result (list string).

(** [importlib.import_module(name)] *)
Variable import_module : string -> result py_module.

(** [cls()]: the call of an object without arguments *)
Variable instantiate : Obj -> result Obj.

(** [LearningRateMonitor(logging_interval="epoch")] *)
Variable lr_monitor : Obj.

(** ** [find_model] *)

(** [[n for n in dir(mod) if not n.startswith("_")]] *)
Definition public_names (m : py_module) : list string :=
  filter (fun n => negb (str_startswith n "_")) (map fst (mod_attrs m)).

(** [getattr(mod, "__all__", public names)] *)
Definition exported_names (m : py_module) : list string :=
  match mod_all m with
  | Some names => names
  | None => public_names m
  end.

(** [model_name in names], for a name that may be any value *)
Definition value_in (v : value) (names : list string) : bool :=
  match v with
  | VStr s => mem s names
  | _ => false
  end.

(** [getattr(mod, name)] *)
Definition module_getattr (m : py_module) (name : value) : result Obj :=
  match name with
  | VStr s =>
      match find (fun a => String.eqb s (fst a)) (mod_attrs m) with
      | Some a => Ok (snd a)
      | None => Err AttributeError
      end
  | _ => Err TypeError
  end.

Definition find_model (model_set model_name model_library : value)
  : result (option Obj) :=
  lib <- as_str model_library ;;
  set <- as_str model_set ;;
  listing <- listdir (os_path_join lib [set; "Models"]) ;;
  let module_list :=
    map splitext_root (filter (fun name => str_endswith name ".py") listing) in
  imported_module_list <-
    mapM (fun module => import_module (str_join "." [set; "Models"; module]))
         module_list ;;
  let names :=
    filter (fun m => value_in model_name (exported_names m)) imported_module_list in
  match names with
  | [] => Ok None
  | first :: _ =>
      model_class <- module_getattr first model_name ;;
      Ok (Some model_class)
  end.

(** ** [build_model] *)

Definition build_model (model_config : dict) : result Obj :=
  model_set <- getitem model_config "set" ;;
  model_name <- getitem model_config "name" ;;
  model_library <- getitem model_config "model_library" ;;
  model_class <- find_model model_set model_name model_library ;;
  match model_class with
  | None => Err ValueError
  | Some c => Ok c
  end.

(** ** [callback_objects] *)

Definition callback_objects (model_config : dict) (lr_logger : bool)
  : result (list Obj) :=
  let callback_list :=
    match dict_get "callbacks" model_config with
    | Some callbacks => callbacks
    | None => VNone
    end in
  let callback_list := handle_config_cases callback_list in
  model_set <- getitem model_config "set" ;;
  model_library <- getitem model_config "model_library" ;;
  callback_object_list <-
    mapM (fun callback =>
            cls <- find_model model_set callback model_library ;;
            match cls with
            | Some c => instantiate c
            | None => Err TypeError
            end)
         callback_list ;;
  if lr_logger
  then Ok (callback_object_list ++ [lr_monitor])
  else Ok callback_object_list.

(** ** [get_training_logger] *)

(** The two logger classes; building one may fail. *)
Variable WandbLogger : value -> value -> value -> result Obj.
Variable TensorBoardLogger : value -> value -> value -> result Obj.

(** The configuration is changed in place: it is returned beside the
    outcome, which is the logger, [None], or the exception raised. *)
Definition get_training_logger (model_config : dict)
  : dict * result (option Obj) :=
  match dict_get "logger" model_config with
  | None => (model_config, Err KeyError)
  | Some logger_choice =>
      let model_config :=
        if dict_in "project" model_config then model_config
        else dict_set "project" (VStr "my_project") model_config in
      (model_config,
       if eq_str logger_choice "wandb" then
         project <- getitem model_config "project" ;;
         save_dir <- getitem model_config "artifact_library" ;;
         id <- getitem model_config "resume_id" ;;
         logger <- WandbLogger project save_dir id ;;
         Ok (Some logger)
       else if eq_str logger_choice "tb" then
         name <- getitem model_config "project" ;;
         save_dir <- getitem model_config "artifact_library" ;;
         version <- getitem model_config "resume_id" ;;
         logger <- TensorBoardLogger name save_dir version ;;
         Ok (Some logger)
       else if is_None logger_choice then Ok None
       else Err UnboundLocalError)
  end.

End ModelUtils.

Arguments mod_all {Obj} _.
Arguments mod_attrs {Obj} _.

(** * [logging_utils.py] *)

(** The levels of [logging]. *)
Definition DEBUG : nat := 10.
Definition INFO : nat := 20.
Definition WARNING : nat := 30.

(** A handler: where it writes ([None] for the console, the path of
    the file otherwise) and its level. *)
Record handler : Type := {
  h_file : option string;
  h_level : nat
}.

(** The state of the logging system that [configure_logging] touches:
    the root logger and the levels set on named loggers. *)
Record log_state : Type := {
  root_level : nat;
  root_handlers : list handler;
  logger_levels : list (string * nat)
}.

(** [logging.getLogger(name).setLevel(level)] *)
Fixpoint set_logger_level (name : string) (level : nat) (levels : list (string * nat))
  : list (string * nat) :=
  match levels with
  | [] => [(name, level)]
  | (n, l) :: rest =>
      if String.eqb name n then (n, level) :: rest
      else (n, l) :: set_logger_level name level rest
  end.

Fixpoint get_logger_level (name : string) (levels : list (string * nat)) : option nat :=
  match levels with
  | [] => None
  | (n, l) :: rest => if String.eqb name n then Some l else get_logger_level name rest
  end.

Definition handler_eqb (a b : handler) : bool :=
  match h_file a, h_file b with
  | Some p, Some q => String.eqb p q
  | None, None => true
  | _, _ => false
  end && (h_level a =? h_level b)%nat.

(** [logger.removeHandler(h)]: the first occurrence goes, if any. *)
Fixpoint remove_handler (h : handler) (hs : list handler) : list handler :=
  match hs with
  | [] => []
  | x :: rest => if handler_eqb x h then rest else x :: remove_handler h rest
  end.

Section Logging.

(** Whether the body of the [try] runs to its end for a path: the
    parent directory can be made and the file opened. *)
Variable open_log_file : string -> bool.

(** The messages written on the way are not part of the state. *)
Definition configure_logging (log_dir : option string) (verbose : bool)
    (st : log_state) : log_state :=
  let log_level := if verbose then DEBUG else WARNING in
  let handlers :=
    fold_left (fun hs h => remove_handler h hs) (root_handlers st) (root_handlers st) in
  let console_handler := {| h_file := None; h_level := log_level |} in
  let handlers := handlers ++ [console_handler] in
  let handlers :=
    match log_dir with
    | Some path =>
        if negb (String.eqb path "") && open_log_file path
        then handlers ++ [{| h_file := Some path; h_level := INFO |}]
        else handlers
    | None => handlers
    end in
  let levels :=
    fold_left (fun acc name => set_logger_level name WARNING acc)
              ["lightning.pytorch"; "pytorch_lightning"; "matplotlib"; "PIL"]
              (logger_levels st) in
  {| root_level := log_level; root_handlers := handlers; logger_levels := levels |}.

End Logging.

(** [logging]'s rule for a record of level [lvl] logged on the root
    logger: the logger lets it through when [lvl] reaches its level,
    and each handler writes it when [lvl] reaches the handler's. *)
Definition emitted (st : log_state) (lvl : nat) (h : handler) : bool :=
  (root_level st <=? lvl)%nat && (h_level h <=? lvl)%nat.

(** * Auxiliary notions for the further properties *)

(** Every directory name of the tree is a name: no separator in it. *)
Fixpoint names_ok (t : tree) : bool :=
  match t with
  | Dir subdirs _ =>
      forallb (fun nt => let '(name, sub) := nt in
                         negb (has_char "/" name) && names_ok sub) subdirs
  end.

(** The keys of [other] that [d] does not hold yet, in their order. *)
Definition fresh_keys (d other : dict) : list string :=
  filter (fun k => negb (mem k (keys d))) (keys other).

(** A stage whose configuration file does not exist. *)
Definition sample_stage_missing : dict :=
  [("set", VStr "gnn"); ("config", VStr "missing.yaml")].

(** A sweep over one axis, and a configuration whose list value is
    protected from the sweep. *)
Definition sample_sweep : dict :=
  [("a", VList [VInt 1; VInt 2]); ("b", VInt 3)].

Definition sample_protected : dict :=
  [("lr", VFloat "0.01"); ("callbacks", VList [VList [VStr "a"; VStr "b"]])].

(** The number that a string of decimal digits denotes, read from the
    left with an accumulator. *)
Fixpoint uint_acc (d : Decimal.uint) (acc : Z) : Z :=
  match d with
  | Decimal.Nil => acc
  | Decimal.D0 d => uint_acc d (10 * acc + 0)
  | Decimal.D1 d => uint_acc d (10 * acc + 1)
  | Decimal.D2 d => uint_acc d (10 * acc + 2)
  | Decimal.D3 d => uint_acc d (10 * acc + 3)
  | Decimal.D4 d => uint_acc d (10 * acc + 4)
  | Decimal.D5 d => uint_acc d (10 * acc + 5)
  | Decimal.D6 d => uint_acc d (10 * acc + 6)
  | Decimal.D7 d => uint_acc d (10 * acc + 7)
  | Decimal.D8 d => uint_acc d (10 * acc + 8)
  | Decimal.D9 d => uint_acc d (10 * acc + 9)
  end%Z.


(** A stand-in for [float] that knows one number. *)
Definition sample_float (s : string) : option string :=
  if String.eqb s "1.5" || String.eqb s "1.50" then Some "1.5" else None.

(** A project without [serial] and with set-up commands, and a run
    that asks for the set-up. *)
Definition sample_project_no_serial : dict :=
  [("custom_batch_setup", VList [VStr "module load cuda"]);
   ("command_line_setup", VList [VStr "source env.sh"; VStr "cd work"])].

Definition sample_run_setup : dict :=
  [("batch_config", VStr "batch.yaml"); ("batch_setup", VBool true)].

(** A model library.  In the set [gnn], [callbacks.py] exports a
    callback and holds a private helper; in the set [bad] one module
    does not import; in the set [dup] two modules export [Net]. *)
Definition sample_listdir (path : string) : result (list string) :=
  if String.eqb path "/models/gnn/Models"
  then Ok ["README.md"; "net.py"; "callbacks.py"]
  else if String.eqb path "/models/cb/Models" then Ok ["callbacks.py"]
  else if String.eqb path "/models/bad/Models" then Ok ["net.py"; "broken.py"]
  else if String.eqb path "/models/dup/Models" then Ok ["a.py"; "b.py"]
  else Err (Raise "FileNotFoundError").

Definition sample_net : py_module string :=
  {| mod_all := Some ["Net"];
     mod_attrs := [("Net", "class Net"); ("torch", "module torch")] |}.

Definition sample_callbacks : py_module string :=
  {| mod_all := None;
     mod_attrs := [("EarlyStop", "class EarlyStop"); ("_helper", "function _helper")] |}.

Definition sample_net_b : py_module string :=
  {| mod_all := None; mod_attrs := [("Net", "class Net of b")] |}.

Definition sample_import (name : string) : result (py_module string) :=
  if String.eqb name "gnn.Models.net" then Ok sample_net
  else if String.eqb name "gnn.Models.callbacks" then Ok sample_callbacks
  else if String.eqb name "cb.Models.callbacks" then Ok sample_callbacks
  else if String.eqb name "bad.Models.net" then Ok sample_net
  else if String.eqb name "dup.Models.a" then Ok sample_net
  else if String.eqb name "dup.Models.b" then Ok sample_net_b
  else Err (Raise "ModuleNotFoundError").

Definition sample_instantiate (cls : string) : result string :=
  Ok ("instance of " ++ cls)%string.

Definition sample_logger_class (kind : string) (a b c : value) : result string :=
  Ok (kind ++ "(" ++ py_repr a ++ ", " ++ py_repr b ++ ", " ++ py_repr c ++ ")")%string.

Definition sample_model_config : dict :=
  [("set", VStr "gnn"); ("name", VStr "Net"); ("model_library", VStr "/models");
   ("callbacks", VStr "EarlyStop"); ("logger", VStr "none");
   ("artifact_library", VStr "/artifacts"); ("resume_id", VNone)].

Definition sample_wandb_config : dict :=
  [("logger", VStr "wandb"); ("artifact_library", VStr "/artifacts");
   ("resume_id", VNone)].

Definition sample_missing_config : dict :=
  [("set", VStr "gnn"); ("name", VStr "Missing"); ("model_library", VStr "/models");
   ("callbacks", VList [VStr "Missing"; VStr "EarlyStop"])].

Definition sample_log_state : log_state :=
  {| root_level := WARNING;
     root_handlers := [{| h_file := None; h_level := WARNING |};
                       {| h_file := None; h_level := WARNING |}];
     logger_levels := [("matplotlib", DEBUG)] |}.

(** * Properties *)

(** ** Basic facts about dictionaries *)

Section DictFacts.

Lemma dict_get_set_same (k : string) (v : value) (d : dict) :
  dict_get k (dict_set k v d) = Some v.
Proof.
  induction d as [|[k' v'] rest IH]; simpl.
  - now rewrite String.eqb_refl.
  - destruct (String.eqb k k') eqn:E; simpl.
    + now rewrite String.eqb_refl.
    + now rewrite E.
Qed.

Lemma dict_get_set_other (k k' : string) (v : value) (d : dict) :
  k <> k' -> dict_get k (dict_set k' v d) = dict_get k d.
Proof.
  intros Hne. apply String.eqb_neq in Hne.
  induction d as [|[k0 v0] rest IH]; simpl.
  - now rewrite Hne.
  - destruct (String.eqb k' k0) eqn:E; simpl.
    + apply String.eqb_eq in E. subst k0. now rewrite Hne.
    + now rewrite IH.
Qed.

Lemma dict_get_set (k k' : string) (v : value) (d : dict) :
  dict_get k (dict_set k' v d) =
  if String.eqb k k' then Some v else dict_get k d.
Proof.
  destruct (String.eqb k k') eqn:E.
  - apply String.eqb_eq in E. subst. apply dict_get_set_same.
  - apply String.eqb_neq in E. now apply dict_get_set_other.
Qed.

Lemma keys_dict_set_in (k : string) (v : value) (d : dict) :
  In k (keys d) -> keys (dict_set k v d) = keys d.
Proof.
  induction d as [|[k' v'] rest IH]; simpl; [tauto|].
  intros [->|Hin].
  - now rewrite String.eqb_refl.
  - destruct (String.eqb k k') eqn:E; simpl.
    + apply String.eqb_eq in E. now subst.
    + f_equal. now apply IH.
Qed.

Lemma dict_set_fresh (k : string) (v : value) (d : dict) :
  ~ In k (keys d) -> dict_set k v d = d ++ [(k, v)].
Proof.
  induction d as [|[k' v'] rest IH]; simpl; [reflexivity|].
  intros Hn. destruct (String.eqb k k') eqn:E.
  - apply String.eqb_eq in E. subst. tauto.
  - f_equal. apply IH. tauto.
Qed.

Lemma dict_get_None (k : string) (d : dict) :
  dict_get k d = None <-> ~ In k (keys d).
Proof.
  induction d as [|[k' v'] rest IH]; simpl; [tauto|].
  destruct (String.eqb k k') eqn:E.
  - apply String.eqb_eq in E. subst. split; [discriminate|tauto].
  - apply String.eqb_neq in E. rewrite IH. split.
    + intros Hn [Heq|Hin]; [congruence|tauto].
    + tauto.
Qed.

Lemma dict_wf_set (k : string) (v : value) (d : dict) :
  dict_wf d -> dict_wf (dict_set k v d).
Proof.
  unfold dict_wf. intros Hwf.
  destruct (in_dec string_dec k (keys d)) as [Hin|Hn].
  - now rewrite keys_dict_set_in.
  - rewrite dict_set_fresh by assumption. unfold keys.
    rewrite map_app. simpl. apply NoDup_app; simpl.
    + exact Hwf.
    + repeat constructor. tauto.
    + intros a Ha [<-|[]]. tauto.
Qed.

(** What [update] leaves under a key: the binding of [other] when it
    has one, the old binding otherwise. *)
Lemma dict_get_update (k : string) (other : dict) :
  dict_wf other ->
  forall d,
    dict_get k (dict_update d other) =
    match dict_get k other with
    | Some v => Some v
    | None => dict_get k d
    end.
Proof.
  unfold dict_update.
  induction other as [|[k' v'] rest IH]; intros Hwf d; simpl; [reflexivity|].
  inversion Hwf as [|? ? Hnotin Hwf']; subst.
  rewrite IH by assumption.
  destruct (String.eqb k k') eqn:E.
  - apply String.eqb_eq in E. subst k'.
    apply dict_get_None in Hnotin. rewrite Hnotin.
    apply dict_get_set_same.
  - destruct (dict_get k rest); [reflexivity|].
    apply String.eqb_neq in E. now apply dict_get_set_other.
Qed.

Lemma dict_wf_update (other d : dict) :
  dict_wf d -> dict_wf (dict_update d other).
Proof.
  unfold dict_update. revert d.
  induction other as [|[k v] rest IH]; intros d Hwf; simpl; [exact Hwf|].
  apply IH. now apply dict_wf_set.
Qed.

(** Building a dictionary from pairs with distinct keys keeps the
    pairs as they are. *)
Lemma dict_update_fresh (pairs d : dict) :
  NoDup (keys (d ++ pairs)) -> dict_update d pairs = d ++ pairs.
Proof.
  unfold dict_update. revert d.
  induction pairs as [|[k v] rest IH]; intros d Hnd; simpl.
  - now rewrite app_nil_r.
  - assert (Hn : ~ In k (keys d)).
    { unfold keys in *. rewrite map_app in Hnd. simpl in Hnd.
      apply NoDup_remove_2 in Hnd. intros Hin. apply Hnd.
      apply in_or_app. now left. }
    rewrite dict_set_fresh by assumption.
    rewrite IH; rewrite <- app_assoc; simpl; [reflexivity|exact Hnd].
Qed.

Lemma dict_of_pairs_wf (pairs : dict) :
  dict_wf pairs -> dict_of_pairs pairs = pairs.
Proof.
  intros Hwf. unfold dict_of_pairs. now rewrite dict_update_fresh.
Qed.

End DictFacts.

Lemma mem_In (x : string) (l : list string) : mem x l = true <-> In x l.
Proof.
  unfold mem. rewrite existsb_exists. split.
  - intros [y [Hy E]]. apply String.eqb_eq in E. now subst.
  - intros H. exists x. split; [exact H | apply String.eqb_refl].
Qed.

Lemma keys_distinct_wf (d : dict) : keys_distinct (keys d) = true -> dict_wf d.
Proof.
  unfold dict_wf. induction (keys d) as [|k ks IH]; simpl; intros H.
  - constructor.
  - apply andb_prop in H. destruct H as [Hk Hks]. constructor.
    + intros Hin. apply mem_In in Hin. rewrite Hin in Hk. discriminate.
    + now apply IH.
Qed.

(** ** Sweep expansion *)

Section Product.

Context {A : Type}.

Lemma map_flat_map {B C : Type} (f : B -> C) (g : A -> list B) (l : list A) :
  map f (flat_map g l) = flat_map (fun a => map f (g a)) l.
Proof.
  induction l as [|a l IH]; simpl; [reflexivity|].
  now rewrite map_app, IH.
Qed.

Lemma flat_map_singleton (l : list (list A)) :
  flat_map (fun x => map (app x) [[]]) l = l.
Proof.
  induction l as [|x l IH]; simpl in *; [reflexivity|].
  now rewrite app_nil_r, IH.
Qed.

(** One more pool appended to the right of every partial tuple. *)
Lemma extend_then_complete (x : list A) (pool : list A) (rest : list (list A)) :
  flat_map (fun x' => map (app x') rest) (map (fun y => x ++ [y]) pool)
  = map (app x) (flat_map (fun y => map (cons y) rest) pool).
Proof.
  induction pool as [|y pool IH]; simpl; [reflexivity|].
  rewrite IH, map_app, map_map. f_equal.
  apply map_ext. intros c. now rewrite <- app_assoc.
Qed.

Lemma product_from (pools : list (list A)) :
  forall acc : list (list A),
    fold_left
      (fun result pool => flat_map (fun x => map (fun y => x ++ [y]) pool) result)
      pools acc
    = flat_map (fun x => map (app x) (cartesian pools)) acc.
Proof.
  induction pools as [|pool rest IH]; intros acc; simpl.
  - symmetry. apply flat_map_singleton.
  - rewrite IH. clear IH.
    induction acc as [|x acc IHacc]; simpl; [reflexivity|].
    rewrite flat_map_app, IHacc. f_equal.
    apply extend_then_complete.
Qed.

Lemma product_cartesian (pools : list (list A)) :
  product pools = cartesian pools.
Proof.
  unfold product. rewrite product_from. simpl.
  rewrite app_nil_r. rewrite <- (map_id (cartesian pools)) at 2.
  apply map_ext. reflexivity.
Qed.

Lemma cartesian_empty_pool (pools : list (list A)) :
  In [] pools -> cartesian pools = [].
Proof.
  induction pools as [|pool rest IH]; simpl; [tauto|].
  intros [->|Hin]; [reflexivity|].
  rewrite (IH Hin). simpl.
  induction pool; simpl; auto.
Qed.

Lemma length_flat_map_const {B : Type} (g : A -> list B) (n : nat) (l : list A) :
  (forall a, List.length (g a) = n) -> List.length (flat_map g l) = List.length l * n.
Proof.
  intros Hg. induction l as [|a l IH]; simpl; [reflexivity|].
  now rewrite length_app, Hg, IH.
Qed.

End Product.

Lemma total_list_keys (config : dict) :
  map fst (total_list config) = keys config.
Proof.
  unfold total_list, keys. rewrite map_map. reflexivity.
Qed.

Lemma total_list_values (config : dict) :
  map snd (total_list config) = map axis (values config).
Proof.
  unfold total_list, values. now rewrite !map_map.
Qed.

(** Zipping the keys onto the tuples of the product gives the
    expansion the specification describes. *)
Lemma zip_cartesian (config : dict) :
  map (combine (keys config)) (cartesian (map axis (values config)))
  = sweep_spec config.
Proof.
  induction config as [|[k v] rest IH]; simpl; [reflexivity|].
  rewrite map_flat_map.
  apply flat_map_ext. intros x.
  rewrite map_map. rewrite <- IH, map_map. reflexivity.
Qed.

Lemma sweep_spec_keys (config : dict) (run : dict) :
  In run (sweep_spec config) -> keys run = keys config.
Proof.
  revert run. induction config as [|[k v] rest IH]; simpl; intros run Hin.
  - destruct Hin as [<-|[]]. reflexivity.
  - apply in_flat_map in Hin. destruct Hin as [x [_ Hin]].
    apply in_map_iff in Hin. destruct Hin as [r [<- Hr]].
    simpl. f_equal. now apply IH.
Qed.

Lemma sweep_spec_values (config : dict) (run : dict) (k : string) (x : value) :
  In run (sweep_spec config) -> In (k, x) run ->
  exists v, In (k, v) config /\ In x (axis v).
Proof.
  revert run. induction config as [|[k0 v0] rest IH]; simpl; intros run Hin Hkx.
  - destruct Hin as [<-|[]]. destruct Hkx.
  - apply in_flat_map in Hin. destruct Hin as [y [Hy Hin]].
    apply in_map_iff in Hin. destruct Hin as [r [<- Hr]].
    destruct Hkx as [Heq|Hkx].
    + inversion Heq; subst. exists v0. auto.
    + destruct (IH r Hr Hkx) as [v [Hv Hx]]. exists v. auto.
Qed.

Lemma sweep_spec_length (config : dict) :
  List.length (sweep_spec config)
  = fold_right Nat.mul 1 (map (fun kv => List.length (axis (snd kv))) config).
Proof.
  induction config as [|[k v] rest IH]; simpl; [reflexivity|].
  rewrite (length_flat_map_const _ (List.length (sweep_spec rest))).
  - now rewrite IH.
  - intros a. apply length_map.
Qed.

Lemma combo_config_unfold (k : string) (v : value) (rest : dict) :
  combo_config ((k, v) :: rest)
  = Ok (map (fun bundle => dict_of_pairs (combine (keys ((k, v) :: rest)) bundle))
            (cartesian (map axis (values ((k, v) :: rest))))).
Proof.
  unfold combo_config. simpl unzip_items. cbn [bind].
  rewrite product_cartesian.
  change (fst (k, v) :: map fst (total_list rest))
    with (map fst (total_list ((k, v) :: rest))).
  change (axis (snd (k, v)) :: map snd (total_list rest))
    with (map snd (total_list ((k, v) :: rest))).
  now rewrite total_list_keys, total_list_values.
Qed.

Lemma combo_config_nonempty (config : dict) :
  dict_wf config -> config <> [] -> combo_config config = Ok (sweep_spec config).
Proof.
  intros Hwf Hne. destruct config as [|[k v] rest]; [congruence|].
  rewrite combo_config_unfold. f_equal.
  rewrite <- (map_map (combine (keys ((k, v) :: rest))) dict_of_pairs).
  rewrite zip_cartesian.
  rewrite <- (map_id (sweep_spec ((k, v) :: rest))) at 2.
  apply map_ext_in. intros run Hin.
  apply dict_of_pairs_wf. unfold dict_wf.
  now rewrite (sweep_spec_keys _ _ Hin).
Qed.

(** C2 (as amended).  For every non-empty configuration mapping,
    [combo_config] treats a value that is not a list as a one-element
    axis and a list as the axis itself, and returns the cartesian
    product over all keys' axes, first key outermost and every axis in
    its listed order: one dictionary per tuple, each with the full key
    set of the input in the input's order and each value drawn from the
    axis of its key. *)
Theorem combo_config_cartesian (config : dict) :
  dict_wf config ->
  config <> [] ->
  combo_config config = Ok (sweep_spec config)
  /\ (forall run, In run (sweep_spec config) -> keys run = keys config)
  /\ (forall run k x, In run (sweep_spec config) -> In (k, x) run ->
        exists v, In (k, v) config /\ In x (axis v))
  /\ List.length (sweep_spec config)
     = fold_right Nat.mul 1 (map (fun kv => List.length (axis (snd kv))) config).
Proof.
  intros Hwf Hne. repeat split.
  - now apply combo_config_nonempty.
  - apply sweep_spec_keys.
  - apply sweep_spec_values.
  - apply sweep_spec_length.
Qed.

(** The example of the specification: [{a: [1, 2], b: 3}] expands to
    [{a: 1, b: 3}] then [{a: 2, b: 3}]. *)
Lemma combo_config_cartesian_witness :
  dict_wf [("a", VList [VInt 1; VInt 2]); ("b", VInt 3)]
  /\ [("a", VList [VInt 1; VInt 2]); ("b", VInt 3)] <> []
  /\ combo_config [("a", VList [VInt 1; VInt 2]); ("b", VInt 3)]
     = Ok [ [("a", VInt 1); ("b", VInt 3)]; [("a", VInt 2); ("b", VInt 3)] ].
Proof.
  assert (Hwf : dict_wf [("a", VList [VInt 1; VInt 2]); ("b", VInt 3)]).
  { unfold dict_wf. simpl. constructor.
    - simpl. intros [H|[]]. discriminate H.
    - constructor; [simpl; tauto | constructor]. }
  assert (Hne : [("a", VList [VInt 1; VInt 2]); ("b", VInt 3)] <> [])
    by discriminate.
  split; [exact Hwf | split; [exact Hne|]].
  exact (proj1 (combo_config_cartesian _ Hwf Hne)).
Defined.

(** C2 as stated fails on the mapping with no key: the product over no
    axis has one tuple, the empty one, yet no list is returned. *)
Lemma combo_config_cartesian_counterexample :
  sweep_spec [] = [[]]
  /\ combo_config [] = Err ValueError
  /\ combo_config [] <> Ok (sweep_spec []).
Proof.
  repeat split. discriminate.
Qed.

(** C7.  A configuration that holds a key whose value is the empty
    list expands to the empty sequence; nothing is raised. *)
Theorem combo_config_empty_axis (config : dict) (k : string) :
  In (k, VList []) config -> combo_config config = Ok [].
Proof.
  intros Hin. destruct config as [|[k0 v0] rest]; [destruct Hin|].
  rewrite combo_config_unfold.
  rewrite cartesian_empty_pool; [reflexivity|].
  apply in_map_iff. exists (VList []). split; [reflexivity|].
  unfold values. apply in_map_iff. exists (k, VList []). auto.
Qed.

Lemma combo_config_empty_axis_witness :
  In ("a", VList []) [("lr", VList [VInt 1; VInt 2]); ("a", VList [])]
  /\ combo_config [("lr", VList [VInt 1; VInt 2]); ("a", VList [])] = Ok [].
Proof.
  assert (Hin : In ("a", VList []) [("lr", VList [VInt 1; VInt 2]); ("a", VList [])])
    by (simpl; tauto).
  split; [exact Hin|].
  exact (combo_config_empty_axis _ "a" Hin).
Defined.

(** C9.  On the mapping with no key [combo_config] raises (the
    unpacking of the zipped items into keys and values finds nothing
    to unpack: [ValueError]); on every other mapping it returns a list
    of dictionaries. *)
Theorem combo_config_empty_raises :
  combo_config [] = Err ValueError
  /\ (forall config : dict, config <> [] ->
        exists runs : list dict, combo_config config = Ok runs).
Proof.
  split; [reflexivity|].
  intros [|[k v] rest] Hne; [congruence|].
  rewrite combo_config_unfold. eauto.
Qed.

Lemma combo_config_empty_raises_witness :
  [("a", VInt 1)] <> []
  /\ exists runs : list dict, combo_config [("a", VInt 1)] = Ok runs.
Proof.
  assert (Hne : [("a", VInt 1)] <> ([] : dict)) by discriminate.
  split; [exact Hne|].
  exact (proj2 combo_config_empty_raises _ Hne).
Defined.

(** ** Argument serialization *)

Lemma collapse_leaf (v : value) : is_leaf v = true -> collapse v = [v].
Proof. destruct v; simpl; intros H; try reflexivity; discriminate. Qed.

Lemma collapse_leaves (l : list value) :
  forallb is_leaf l = true -> flat_map collapse l = l.
Proof.
  induction l as [|v l IH]; simpl; [reflexivity|].
  intros H. apply andb_prop in H. destruct H as [Hv Hl].
  now rewrite (collapse_leaf v Hv), (IH Hl).
Qed.

Lemma collapse_flat (v : value) : is_flat v = true -> collapse v = axis v.
Proof.
  destruct v; simpl; intros H; try reflexivity.
  - now apply collapse_leaves.
  - discriminate.
Qed.

Lemma arg_tokens_per_key (config : dict) :
  arg_tokens config
  = flat_map (fun kv => ("--" ++ fst kv)%string :: map py_str (collapse (snd kv)))
             config.
Proof.
  unfold arg_tokens. simpl collapse.
  induction config as [|[k v] rest IH]; simpl; [reflexivity|].
  rewrite app_nil_r, map_app. simpl in IH. now rewrite IH.
Qed.

Lemma arg_tokens_flat (config : dict) :
  forallb (fun kv => is_flat (snd kv)) config = true ->
  arg_tokens config = arg_tokens_spec config.
Proof.
  intros H. rewrite arg_tokens_per_key. unfold arg_tokens_spec.
  induction config as [|[k v] rest IH]; [reflexivity|].
  cbn [flat_map forallb fst snd] in *.
  apply andb_prop in H. destruct H as [Hv Hrest].
  now rewrite (collapse_flat v Hv), (IH Hrest).
Qed.

(** C5 (as amended).  [dict_to_args] emits, key after key in the
    mapping's order, the token [--key] followed by the leaves of the
    value as [collapse] flattens it: one token for a value that is no
    list and no mapping, one token per element for a list of such
    values; nested lists are flattened to their leaves.  The tokens are
    joined by single spaces.  Whenever every value is a leaf or a list
    of leaves, the string is the one the specification describes. *)
Theorem dict_to_args_tokens (config : dict) :
  dict_to_args config
  = str_join " "
      (flat_map (fun kv => ("--" ++ fst kv)%string :: map py_str (collapse (snd kv)))
                config)
  /\ (forall v, is_leaf v = true -> collapse v = [v])
  /\ (forall l, forallb is_leaf l = true -> collapse (VList l) = l)
  /\ (forall l, collapse (VList l) = flat_map collapse l)
  /\ (forallb (fun kv => is_flat (snd kv)) config = true ->
      dict_to_args config = str_join " " (arg_tokens_spec config)).
Proof.
  repeat split.
  - unfold dict_to_args. now rewrite arg_tokens_per_key.
  - apply collapse_leaf.
  - intros l Hl. simpl. now apply collapse_leaves.
  - intros H. unfold dict_to_args. now rewrite arg_tokens_flat.
Qed.

(** The example of the specification: [{x: 1, y: [2, 3]}] serializes
    to [--x 1 --y 2 3]. *)
Lemma dict_to_args_tokens_witness :
  forallb (fun kv => is_flat (snd kv))
          [("x", VInt 1); ("y", VList [VInt 2; VInt 3])] = true
  /\ dict_to_args [("x", VInt 1); ("y", VList [VInt 2; VInt 3])] = "--x 1 --y 2 3".
Proof.
  split; [reflexivity|].
  exact (proj2 (proj2 (proj2 (proj2 (dict_to_args_tokens
                  [("x", VInt 1); ("y", VList [VInt 2; VInt 3])])))) eq_refl).
Defined.

(** C5 as stated fails on a list value that holds a list: one
    element, two tokens after the flag. *)
Lemma dict_to_args_tokens_counterexample :
  arg_tokens [("y", VList [VList [VInt 2; VInt 3]])] = ["--y"; "2"; "3"]
  /\ arg_tokens_spec [("y", VList [VList [VInt 2; VInt 3]])] = ["--y"; "[2, 3]"]
  /\ dict_to_args [("y", VList [VList [VInt 2; VInt 3]])]
     <> str_join " " (arg_tokens_spec [("y", VList [VList [VInt 2; VInt 3]])]).
Proof.
  repeat split. vm_compute. discriminate.
Qed.

(** ** Checkpoint lookup *)

Section Lookup.

Variable fs : string -> option tree.

Lemma find_first {A : Type} (p : A -> bool) (pre post : list A) (a : A) :
  (forall x, In x pre -> p x = false) -> p a = true ->
  find p (pre ++ a :: post) = Some a.
Proof.
  intros Hpre Ha. induction pre as [|x pre IH]; simpl.
  - now rewrite Ha.
  - rewrite (Hpre x) by (simpl; tauto). apply IH.
    intros y Hy. apply Hpre. simpl. tauto.
Qed.

Lemma find_none {A : Type} (p : A -> bool) (l : list A) :
  (forall x, In x l -> p x = false) -> find p l = None.
Proof.
  intros H. induction l as [|x l IH]; simpl; [reflexivity|].
  rewrite (H x) by (simpl; tauto). apply IH.
  intros y Hy. apply H. simpl. tauto.
Qed.

Lemma find_checkpoint_none (run_id path : string) :
  (forall t, In t (os_walk fs path) -> mem run_id (snd (fst t)) = false) ->
  find_checkpoint fs run_id path = None.
Proof.
  intros H. unfold find_checkpoint. now rewrite find_none.
Qed.

(** The directory at the top of the walk is looked at first. *)
Lemma os_walk_top (path : string) (subdirs : list (string * tree)) (files : list string) :
  fs path = Some (Dir subdirs files) ->
  exists post, os_walk fs path = [] ++ (path, map fst subdirs, files) :: post.
Proof.
  intros H. unfold os_walk. rewrite H. simpl. eauto.
Qed.

Lemma append_empty (a b : string) : (a ++ b)%string = "" -> b = "".
Proof.
  destruct a; simpl; [tauto | discriminate].
Qed.

Lemma ends_with_sep_append (a b : string) :
  b <> "" -> ends_with_sep (a ++ b) = ends_with_sep b.
Proof.
  intros Hb. induction a as [|c a IH]; simpl; [reflexivity|].
  destruct (a ++ b)%string eqn:E.
  - apply append_empty in E. contradiction.
  - exact IH.
Qed.

(** Joining a directory name and then [checkpoints/last.ckpt] puts
    exactly one separator between the two. *)
Lemma join_checkpoint_suffix (root run_id : string) :
  run_id <> "" ->
  ends_with_sep run_id = false ->
  os_path_join root [run_id; "checkpoints/last.ckpt"]
  = (os_path_join root [run_id] ++ "/checkpoints/last.ckpt")%string.
Proof.
  intros Hne Hsep. unfold os_path_join. cbn [fold_left].
  set (p := if starts_with_sep run_id then run_id
            else if (String.eqb root "" || ends_with_sep root)%bool
                 then (root ++ run_id)%string
                 else (root ++ "/" ++ run_id)%string).
  assert (Hp : String.eqb p "" = false /\ ends_with_sep p = false).
  { subst p. destruct (starts_with_sep run_id).
    - split; [now apply String.eqb_neq | exact Hsep].
    - destruct (String.eqb root "" || ends_with_sep root)%bool.
      + split.
        * apply String.eqb_neq. intros E. apply append_empty in E. contradiction.
        * now rewrite ends_with_sep_append.
      + split.
        * apply String.eqb_neq. intros E. apply append_empty in E. discriminate.
        * rewrite ends_with_sep_append by discriminate.
          change ("/" ++ run_id)%string with (String "/" run_id).
          cbn [ends_with_sep]. destruct run_id; [contradiction | exact Hsep]. }
  destruct Hp as [Hp1 Hp2].
  cbn [starts_with_sep Ascii.eqb]. simpl Ascii.eqb.
  rewrite Hp1, Hp2. reflexivity.
Qed.

(** C8.  [find_checkpoint] goes through the triples of the walk below
    the base path in their order and stops at the first directory that
    lists a subdirectory named [run_id]; it returns the path of that
    subdirectory followed by [/checkpoints/last.ckpt].  Nothing of what
    lies inside the subdirectory is consulted. *)
Theorem find_checkpoint_first_match
    (run_id path : string)
    (pre post : list (string * list string * list string))
    (root : string) (dirs files : list string) :
  os_walk fs path = pre ++ (root, dirs, files) :: post ->
  (forall t, In t pre -> mem run_id (snd (fst t)) = false) ->
  mem run_id dirs = true ->
  run_id <> "" ->
  ends_with_sep run_id = false ->
  find_checkpoint fs run_id path
  = Some (os_path_join root [run_id; "checkpoints/last.ckpt"])
  /\ find_checkpoint fs run_id path
     = Some (os_path_join root [run_id] ++ "/checkpoints/last.ckpt")%string.
Proof.
  intros Hwalk Hpre Hin Hne Hsep. unfold find_checkpoint.
  rewrite Hwalk, (find_first _ pre post (root, dirs, files)); auto.
  split; [reflexivity|]. f_equal.
  now apply join_checkpoint_suffix.
Qed.

End Lookup.

(** The example of the specification: run [run123] under [/artifacts]
    resolves to [/artifacts/run123/checkpoints/last.ckpt], although the
    run directory is empty. *)
Lemma find_checkpoint_first_match_witness :
  os_walk artifacts_fs "/artifacts"
  = [] ++ ("/artifacts", ["other"; "run123"], [])
       :: [("/artifacts/other", [], ["notes.txt"]); ("/artifacts/run123", [], [])]
  /\ (forall t : string * list string * list string,
        In t [] -> mem "run123" (snd (fst t)) = false)
  /\ mem "run123" ["other"; "run123"] = true
  /\ find_checkpoint artifacts_fs "run123" "/artifacts"
     = Some "/artifacts/run123/checkpoints/last.ckpt".
Proof.
  assert (Hpre : forall t : string * list string * list string,
             In t [] -> mem "run123" (snd (fst t)) = false)
    by (intros t []).
  split; [reflexivity | split; [exact Hpre | split; [reflexivity|]]].
  assert (Hne : "run123" <> "") by discriminate.
  exact (proj1 (find_checkpoint_first_match artifacts_fs "run123" "/artifacts"
                  [] _ "/artifacts" ["other"; "run123"] []
                  eq_refl Hpre eq_refl Hne eq_refl)).
Defined.

(** ** Resolution of a stage's configuration *)

Lemma last_writer_updates (k : string) (base o libs stage : dict) :
  dict_wf o -> dict_wf libs -> dict_wf stage ->
  dict_get k (dict_update (dict_update (dict_update base o) libs) stage)
  = last_writer k [base; o; libs; stage].
Proof.
  intros Ho Hlibs Hstage.
  rewrite !dict_get_update by assumption.
  unfold last_writer. simpl.
  destruct (dict_get k stage), (dict_get k libs), (dict_get k o), (dict_get k base);
    reflexivity.
Qed.

Lemma dict_update_nil (d : dict) : dict_update d [] = d.
Proof. reflexivity. Qed.

Lemma merge_layers_result (base stage project_config libs : dict) :
  (dict_get "override" stage = None
   \/ exists o, dict_get "override" stage = Some (VDict o)) ->
  dict_get "libraries" project_config = Some (VDict libs) ->
  merge_layers base stage project_config
  = Ok (dict_update (dict_update (dict_update base (override_layer stage)) libs) stage).
Proof.
  intros Hov Hlibs. unfold merge_layers, override_layer, getitem.
  rewrite Hlibs.
  destruct Hov as [Hnone | [o Ho]].
  - rewrite Hnone. reflexivity.
  - rewrite Ho. reflexivity.
Qed.

Lemma override_layer_wf (stage : dict) :
  (dict_get "override" stage = None
   \/ exists o, dict_get "override" stage = Some (VDict o) /\ dict_wf o) ->
  dict_wf (override_layer stage).
Proof.
  unfold override_layer. intros [Hnone | [o [Ho Hwf]]].
  - rewrite Hnone. constructor.
  - now rewrite Ho.
Qed.

(** The inference flag touches no key but [inference]. *)
Lemma inference_policy_other_keys (merged run_args config : dict) (k : string) :
  inference_policy merged run_args = Ok config ->
  k <> "inference" ->
  dict_get k config = dict_get k merged.
Proof.
  unfold inference_policy, getattr. intros H Hk.
  destruct (dict_get "inference" run_args) as [inference|].
  - destruct (truthy inference).
    + inversion H; subst. now apply dict_get_set_other.
    + destruct (dict_get "batch" run_args) as [batch|]; [|discriminate].
      cbn [bind] in H. destruct (negb (truthy batch)); inversion H; subst.
      * now apply dict_get_set_other.
      * reflexivity.
  - now inversion H.
Qed.

Lemma inference_policy_total (merged run_args : dict) (batch : value) :
  dict_get "batch" run_args = Some batch ->
  exists config, inference_policy merged run_args = Ok config.
Proof.
  intros Hb. unfold inference_policy, getattr. rewrite Hb. cbn [bind].
  destruct (dict_get "inference" run_args) as [inference|]; [|eauto].
  destruct (truthy inference); [eauto|].
  destruct (negb (truthy batch)); eauto.
Qed.

Section Resolution.

Variable fs : string -> option tree.
Variable read_yaml : option string -> result value.
Variable torch_load : option string -> result value.

(** C1 (as amended).  Whatever the base configuration (the mapping of
    the file with [logger] and [resume_id] set, or the hyper-parameters
    of the checkpoint with [checkpoint_path] set), the override mapping
    of the stage, the library mapping of the project and the stage
    descriptor, the three updates give every key the value written by
    the last layer that holds it, in the order base, override (when
    present), libraries, stage descriptor, each layer overwriting key
    by key; the configuration [load_config] returns has that value
    under every key other than [inference]. *)
Theorem load_config_last_writer
    (stage : dict) (resume_id : option string) (project_config run_args : dict)
    (base libs : dict) (batch : value) :
  load_base fs read_yaml torch_load stage resume_id project_config = Ok base ->
  dict_wf stage ->
  (dict_get "override" stage = None
   \/ exists o, dict_get "override" stage = Some (VDict o) /\ dict_wf o) ->
  dict_get "libraries" project_config = Some (VDict libs) ->
  dict_wf libs ->
  dict_get "batch" run_args = Some batch ->
  exists merged config,
    merge_layers base stage project_config = Ok merged
    /\ load_config fs read_yaml torch_load stage resume_id project_config run_args
       = Ok config
    /\ (forall k, dict_get k merged
                  = last_writer k [base; override_layer stage; libs; stage])
    /\ (forall k, k <> "inference" ->
                  dict_get k config
                  = last_writer k [base; override_layer stage; libs; stage]).
Proof.
  intros Hbase Hstage Hov Hlibs Hwf Hbatch.
  assert (Hov' : dict_get "override" stage = None
                 \/ exists o, dict_get "override" stage = Some (VDict o)).
  { destruct Hov as [H | [o [H _]]]; eauto. }
  pose proof (merge_layers_result base stage project_config libs Hov' Hlibs) as Hm.
  pose proof (override_layer_wf stage Hov) as Ho.
  set (merged :=
         dict_update (dict_update (dict_update base (override_layer stage)) libs) stage)
    in *.
  destruct (inference_policy_total merged run_args batch Hbatch) as [config Hc].
  exists merged, config. repeat split.
  - exact Hm.
  - unfold load_config. rewrite Hbase. cbn [bind]. rewrite Hm. exact Hc.
  - intros k. subst merged. now apply last_writer_updates.
  - intros k Hk.
    rewrite (inference_policy_other_keys merged run_args config k Hc Hk).
    subst merged. now apply last_writer_updates.
Qed.

(** C4.  With [base] the base configuration and [merged] what the
    three updates make of it: a true [run_args.inference] sets
    [inference] to [True]; a false one, when [run_args.batch] is false
    too, sets it to [False]; when [run_args] has no [inference], or a
    false one while [batch] is true, the merged configuration is
    returned as it is, [inference] included or absent as the layers
    left it.  No other key is ever touched.  (True and false are the
    truth values Python gives the attributes.) *)
Theorem load_config_inference_policy
    (stage : dict) (resume_id : option string) (project_config run_args : dict)
    (base merged : dict) :
  load_base fs read_yaml torch_load stage resume_id project_config = Ok base ->
  merge_layers base stage project_config = Ok merged ->
  (forall inference,
      dict_get "inference" run_args = Some inference -> truthy inference = true ->
      exists config,
        load_config fs read_yaml torch_load stage resume_id project_config run_args
        = Ok config
        /\ dict_get "inference" config = Some (VBool true)
        /\ forall k, k <> "inference" -> dict_get k config = dict_get k merged)
  /\ (forall inference batch,
      dict_get "inference" run_args = Some inference -> truthy inference = false ->
      dict_get "batch" run_args = Some batch -> truthy batch = false ->
      exists config,
        load_config fs read_yaml torch_load stage resume_id project_config run_args
        = Ok config
        /\ dict_get "inference" config = Some (VBool false)
        /\ forall k, k <> "inference" -> dict_get k config = dict_get k merged)
  /\ (dict_get "inference" run_args = None ->
      load_config fs read_yaml torch_load stage resume_id project_config run_args
      = Ok merged)
  /\ (forall inference batch,
      dict_get "inference" run_args = Some inference -> truthy inference = false ->
      dict_get "batch" run_args = Some batch -> truthy batch = true ->
      load_config fs read_yaml torch_load stage resume_id project_config run_args
      = Ok merged).
Proof.
  intros Hbase Hm.
  unfold load_config. rewrite Hbase. cbn [bind]. rewrite Hm.
  unfold inference_policy, getattr.
  repeat split.
  - intros inference Hi Ht. rewrite Hi, Ht.
    eexists. split; [reflexivity|]. split.
    + apply dict_get_set_same.
    + intros k Hk. now apply dict_get_set_other.
  - intros inference batch Hi Ht Hbatch Hb. rewrite Hi, Ht, Hbatch. cbn [bind].
    rewrite Hb. simpl.
    eexists. split; [reflexivity|]. split.
    + apply dict_get_set_same.
    + intros k Hk. now apply dict_get_set_other.
  - intros Hi. now rewrite Hi.
  - intros inference batch Hi Ht Hbatch Hb. rewrite Hi, Ht, Hbatch. cbn [bind].
    now rewrite Hb.
Qed.

(** C6 (as amended).  When a run is resumed and no directory below
    the artifact library is named after it, [find_checkpoint] returns
    [None], [load_config] hands [None] to the checkpoint loader, and
    the error of [load_config] is the one the loader raises on it. *)
Theorem load_config_missing_checkpoint
    (stage : dict) (run_id : string) (project_config run_args : dict)
    (libs : dict) (path : string) (e : exn) :
  dict_get "libraries" project_config = Some (VDict libs) ->
  dict_get "artifact_library" libs = Some (VStr path) ->
  (forall t, In t (os_walk fs path) -> mem run_id (snd (fst t)) = false) ->
  torch_load None = Err e ->
  find_checkpoint fs run_id path = None
  /\ load_config fs read_yaml torch_load stage (Some run_id) project_config run_args
     = Err e.
Proof.
  intros Hlibs Hpath Hnone Hload.
  pose proof (find_checkpoint_none fs run_id path Hnone) as Hfind.
  split; [exact Hfind|].
  unfold load_config, load_base, getitem, subscript, getitem.
  rewrite Hlibs. cbn [bind]. rewrite Hpath. cbn [bind as_str].
  rewrite Hfind, Hload. reflexivity.
Qed.

End Resolution.

(** The sample stage, read from its file: every key of the result but
    [inference] has the value of the last layer that holds it. *)
Lemma load_config_last_writer_witness :
  load_base sample_fs sample_read_yaml sample_torch_load
            sample_stage None sample_project_config = Ok sample_base
  /\ exists merged config,
      merge_layers sample_base sample_stage sample_project_config = Ok merged
      /\ load_config sample_fs sample_read_yaml sample_torch_load
                     sample_stage None sample_project_config sample_run_args
         = Ok config
      /\ (forall k, dict_get k merged
                    = last_writer k [sample_base; override_layer sample_stage;
                                     sample_libraries; sample_stage])
      /\ (forall k, k <> "inference" ->
                    dict_get k config
                    = last_writer k [sample_base; override_layer sample_stage;
                                     sample_libraries; sample_stage]).
Proof.
  split; [reflexivity|].
  refine (load_config_last_writer sample_fs sample_read_yaml sample_torch_load
            sample_stage None sample_project_config sample_run_args
            sample_base sample_libraries (VBool false)
            eq_refl (keys_distinct_wf sample_stage eq_refl) _
            eq_refl (keys_distinct_wf sample_libraries eq_refl) eq_refl).
  right. exists [("lr", VFloat "0.01")]. split; [reflexivity|].
  exact (keys_distinct_wf [("lr", VFloat "0.01")] eq_refl).
Defined.

(** C1 as stated fails on the key [inference]: the file is the last
    layer that holds it and writes [False], the command line asks for
    inference, and the configuration returned holds [True]. *)
Lemma load_config_last_writer_counterexample :
  load_base sample_fs sample_read_yaml sample_torch_load
            sample_stage None sample_project_config = Ok sample_base
  /\ last_writer "inference" [sample_base; override_layer sample_stage;
                              sample_libraries; sample_stage]
     = Some (VBool false)
  /\ exists config,
      load_config sample_fs sample_read_yaml sample_torch_load
                  sample_stage None sample_project_config sample_run_args
      = Ok config
      /\ dict_get "inference" config = Some (VBool true)
      /\ dict_get "inference" config
         <> last_writer "inference" [sample_base; override_layer sample_stage;
                                     sample_libraries; sample_stage].
Proof.
  split; [reflexivity|]. split; [reflexivity|].
  eexists. split; [reflexivity|]. split; [reflexivity|].
  vm_compute. discriminate.
Qed.

(** The sample stage run with [--inference]: the flag is forced. *)
Lemma load_config_inference_policy_witness :
  load_base sample_fs sample_read_yaml sample_torch_load
            sample_stage None sample_project_config = Ok sample_base
  /\ merge_layers sample_base sample_stage sample_project_config = Ok sample_merged
  /\ dict_get "inference" sample_merged = Some (VBool false)
  /\ exists config,
      load_config sample_fs sample_read_yaml sample_torch_load
                  sample_stage None sample_project_config sample_run_args
      = Ok config
      /\ dict_get "inference" config = Some (VBool true)
      /\ forall k, k <> "inference" -> dict_get k config = dict_get k sample_merged.
Proof.
  split; [reflexivity|]. split; [reflexivity|]. split; [reflexivity|].
  exact (proj1 (load_config_inference_policy
                  sample_fs sample_read_yaml sample_torch_load
                  sample_stage None sample_project_config sample_run_args
                  sample_base sample_merged eq_refl eq_refl)
               (VBool true) eq_refl eq_refl).
Defined.

Lemma sample_no_run999 :
  forall t, In t (os_walk sample_fs "/artifacts") -> mem "run999" (snd (fst t)) = false.
Proof.
  intros t Hin. vm_compute in Hin.
  repeat (destruct Hin as [<-|Hin]; [reflexivity|]). destruct Hin.
Defined.

(** Resuming a run that was never made, with a loader that raises
    [AttributeError] on [None]. *)
Lemma load_config_missing_checkpoint_witness :
  find_checkpoint sample_fs "run999" "/artifacts" = None
  /\ load_config sample_fs sample_read_yaml sample_torch_load
                 sample_stage (Some "run999") sample_project_config sample_run_args
     = Err AttributeError.
Proof.
  exact (load_config_missing_checkpoint
           sample_fs sample_read_yaml sample_torch_load
           sample_stage "run999" sample_project_config sample_run_args
           sample_libraries "/artifacts" AttributeError
           eq_refl eq_refl sample_no_run999 eq_refl).
Defined.

(** C6 as stated fails: no directory is named [run999], and the
    failure of [load_config] is the loader's [AttributeError], not
    [CheckpointNotFound]. *)
Lemma load_config_missing_checkpoint_counterexample :
  (forall t, In t (os_walk sample_fs "/artifacts") ->
             mem "run999" (snd (fst t)) = false)
  /\ load_config sample_fs sample_read_yaml sample_torch_load
                 sample_stage (Some "run999") sample_project_config sample_run_args
     = Err AttributeError
  /\ load_config sample_fs sample_read_yaml sample_torch_load
                 sample_stage (Some "run999") sample_project_config sample_run_args
     <> Err CheckpointNotFound.
Proof.
  split; [exact sample_no_run999|]. split; [reflexivity|].
  vm_compute. discriminate.
Qed.

(** ** Submission to the scheduler *)

Lemma mapM_as_str_app (l : list value) (strs : list string) (s : string) :
  mapM as_str l = Ok strs ->
  mapM as_str (l ++ [VStr s]) = Ok (strs ++ [s]).
Proof.
  revert strs. induction l as [|v l IH]; simpl; intros strs H.
  - inversion H. reflexivity.
  - destruct (as_str v) as [a|e]; [|discriminate]. cbn [bind] in *.
    destruct (mapM as_str l) as [bs|e]; [|discriminate]. cbn [bind] in *.
    inversion H; subst. now rewrite (IH bs eq_refl).
Qed.

Section Submission.

Variable read_batch_yaml : value -> result value.
Variable sbatch : sbatch_call -> result value.

(** The command-line set-up never fails on a sequence of strings. *)
Lemma sbatch_setup_total (config project_config : dict)
    (cmds : list value) (strs : list string) :
  dict_get "command_line_setup" project_config = Some (VList cmds) ->
  mapM as_str cmds = Ok strs ->
  exists setup : string, sbatch_setup config project_config = Ok setup.
Proof.
  intros Hcmds Hstrs. unfold sbatch_setup, getitem. rewrite Hcmds.
  destruct (dict_get "batch_setup" config) as [bs|]; [|eauto].
  destruct (truthy bs); [|eauto]. cbn [bind py_len].
  destruct (0 <? List.length cmds)%nat; [|eauto].
  cbn [add_sbatch bind join_items].
  rewrite (mapM_as_str_app cmds strs "sbatch" Hstrs). cbn [bind]. eauto.
Qed.

Lemma declare_dependency_result (slurm : Slurm) (project_config : dict)
    (running_id serial : value) :
  dict_get "serial" project_config = Some serial ->
  declare_dependency slurm project_config running_id
  = Ok (if negb (is_None running_id) && truthy serial
        then set_dependency slurm [("afterok", running_id)]
        else slurm).
Proof.
  intros Hserial. unfold declare_dependency, getitem. rewrite Hserial.
  destruct (is_None running_id); cbn [negb andb bind]; [reflexivity|].
  destruct (truthy serial); reflexivity.
Qed.

Lemma is_None_spec (v : value) : is_None v = true <-> v = VNone.
Proof. destruct v; simpl; split; congruence. Qed.

(** C3.  The client handed to the scheduler carries the dependency
    [afterok] on the previous handle exactly when that handle is not
    [None] and [project_config["serial"]] is true; otherwise it carries
    none, and with [serial] false the call is the one made with no
    previous handle at all. *)
Theorem submit_batch_dependency
    (config project_config : dict) (running_id : value)
    (path serial setup : value) (kw : dict) (lines : list string)
    (cmds : list value) (strs : list string) :
  dict_get "batch_config" config = Some path ->
  read_batch_yaml path = Ok (VDict kw) ->
  dict_get "serial" project_config = Some serial ->
  dict_get "custom_batch_setup" project_config = Some setup ->
  join_items setup = Ok lines ->
  dict_get "command_line_setup" project_config = Some (VList cmds) ->
  mapM as_str cmds = Ok strs ->
  exists call,
    submit_batch_call read_batch_yaml config project_config running_id = Ok call
    /\ submit_batch read_batch_yaml sbatch config project_config running_id
       = sbatch call
    /\ kwargs (client call) = kw
    /\ (dependency (client call) = Some [("afterok", running_id)]
        <-> running_id <> VNone /\ truthy serial = true)
    /\ (dependency (client call) = None
        <-> running_id = VNone \/ truthy serial = false)
    /\ (truthy serial = false ->
        submit_batch_call read_batch_yaml config project_config running_id
        = submit_batch_call read_batch_yaml config project_config VNone).
Proof.
  intros Hpath Hyaml Hserial Hsetup Hlines Hcmds Hstrs.
  destruct (sbatch_setup_total config project_config cmds strs Hcmds Hstrs)
    as [s Hs].
  assert (Hcall : forall rid,
             submit_batch_call read_batch_yaml config project_config rid
             = Ok {| client := if negb (is_None rid) && truthy serial
                               then set_dependency (Slurm_new kw) [("afterok", rid)]
                               else Slurm_new kw;
                     run_cmd := (str_join newline lines ++ newline ++ " ttbatch "
                                 ++ dict_to_args config)%string;
                     sbatch_cmd := s;
                     shell := "/bin/bash" |}).
  { intros rid. unfold submit_batch_call, getitem.
    rewrite Hpath. cbn [bind]. rewrite Hyaml. cbn [bind as_mapping].
    rewrite (declare_dependency_result _ _ rid serial Hserial). cbn [bind].
    rewrite Hsetup. cbn [bind]. rewrite Hlines. cbn [bind].
    rewrite Hs. reflexivity. }
  eexists. split; [apply Hcall|].
  split; [unfold submit_batch; rewrite Hcall; reflexivity|].
  cbn [client].
  pose proof (is_None_spec running_id) as HN.
  destruct (is_None running_id) eqn:En, (truthy serial) eqn:Et;
    cbn [negb andb kwargs dependency Slurm_new set_dependency].
  - split; [reflexivity|]. split; [|split].
    + split; [discriminate|]. intros [H _]. apply proj1 in HN. tauto.
    + split; [|reflexivity]. intros _. left. now apply HN.
    + discriminate.
  - split; [reflexivity|]. split; [|split].
    + split; [discriminate|]. intros [_ H]. discriminate.
    + split; [|reflexivity]. intros _. now right.
    + intros _. rewrite !Hcall, En. reflexivity.
  - split; [reflexivity|]. split; [|split].
    + split; [|reflexivity]. intros _. split; [|reflexivity].
      intros H. apply HN in H. discriminate.
    + split; [discriminate|]. intros [H|H]; [|discriminate].
      apply HN in H. discriminate.
    + discriminate.
  - split; [reflexivity|]. split; [|split].
    + split; [discriminate|]. intros [_ H]. discriminate.
    + split; [|reflexivity]. intros _. now right.
    + intros _. rewrite !Hcall, En. reflexivity.
Qed.

End Submission.

(** The example of the specification: [serial] true and the previous
    handle [123] give an [afterok] dependency on [123]. *)
Lemma submit_batch_dependency_witness :
  exists call,
    submit_batch_call sample_read_batch_yaml sample_run sample_project_config
                      (VStr "123") = Ok call
    /\ dependency (client call) = Some [("afterok", VStr "123")].
Proof.
  destruct (submit_batch_dependency sample_read_batch_yaml (fun _ => Ok (VInt 124))
              sample_run sample_project_config (VStr "123")
              (VStr "batch.yaml") (VBool true) (VList [VStr "module load cuda"])
              [("time", VStr "01:00:00"); ("gpus", VInt 1)]
              ["module load cuda"] [] []
              eq_refl eq_refl eq_refl eq_refl eq_refl eq_refl eq_refl)
    as [call [Hcall [_ [_ [Hdep _]]]]].
  exists call. split; [exact Hcall|].
  apply (proj2 Hdep). split; [discriminate | reflexivity].
Defined.

(** ** Type estimation of command-line values *)

Lemma dict_update_get_source (k : string) (a : value) (other : dict) :
  forall d,
    dict_get k (dict_update d other) = Some a ->
    dict_get k d = Some a \/ In (k, a) other.
Proof.
  unfold dict_update.
  induction other as [|[k' v'] rest IH]; intros d H; simpl in *; [tauto|].
  destruct (IH _ H) as [Hd | Hin]; [|tauto].
  rewrite dict_get_set in Hd.
  destruct (String.eqb k k') eqn:E; [|tauto].
  apply String.eqb_eq in E. inversion Hd; subst. tauto.
Qed.

Section Estimation.

Variable py_float : string -> option string.

Lemma try_casters_scalar (s : string) :
  is_list (try_casters [nullify; boolify; int_caster; float_caster py_float] s) = false.
Proof.
  unfold try_casters, nullify, boolify, int_caster, float_caster.
  repeat match goal with
         | |- context [if ?b then _ else _] => destruct b
         | |- context [match ?o with Some _ => _ | None => _ end] => destruct o
         end; reflexivity.
Qed.

Lemma is_singleton_is_list (v : value) :
  is_list v = false -> is_singleton_list v = false.
Proof. destruct v; simpl; congruence. Qed.

Lemma estimateType_singleton (x : value) :
  estimateType py_float (VList [x]) = estimateType py_float x.
Proof. reflexivity. Qed.

Lemma estimateType_elementwise (l : list value) :
  List.length l <> 1 ->
  estimateType py_float (VList l) = VList (map (estimateType py_float) l).
Proof.
  destruct l as [|x [|y l]]; simpl; intros H; [reflexivity | congruence | reflexivity].
Qed.

(** No result is a one-element list. *)
Lemma estimateType_never_singleton :
  forall v : value, is_singleton_list (estimateType py_float v) = false.
Proof.
  fix IH 1. intros v.
  destruct v as [| b | z | r | s | l | d];
    try (apply is_singleton_is_list; apply try_casters_scalar).
  destruct l as [|x [|y l]].
  - reflexivity.
  - rewrite estimateType_singleton. apply IH.
  - reflexivity.
Qed.

(** C10 (as amended).  [estimateType] of a one-element list is the
    estimated type of the element, not a one-element list around it:
    [["5"]] gives the integer 5.  A list of any other length is mapped
    element by element to a list of the same length.  So no result is a
    one-element list, and a function under [autocast] receives none,
    neither by position nor by keyword. *)
Theorem estimateType_unwraps_singleton :
  (forall x, estimateType py_float (VList [x]) = estimateType py_float x
             /\ estimateType py_float (VList [x]) <> VList [estimateType py_float x])
  /\ estimateType py_float (VList [VStr "5"]) = VInt 5
  /\ (forall l, List.length l <> 1 ->
        estimateType py_float (VList l) = VList (map (estimateType py_float) l))
  /\ (forall v, is_singleton_list (estimateType py_float v) = false)
  /\ (forall (R : Type) (dFxn : list value -> dict -> R) (c : list value) (d : dict),
        exists cp dp,
          autocast py_float dFxn c d = dFxn cp dp
          /\ (forall a, In a cp -> is_singleton_list a = false)
          /\ (forall k a, dict_get k dp = Some a -> is_singleton_list a = false)).
Proof.
  split; [|split; [|split; [|split]]].
  - intros x. split; [reflexivity|].
    rewrite estimateType_singleton. intros H.
    pose proof (estimateType_never_singleton x) as Hn.
    rewrite H in Hn. discriminate.
  - reflexivity.
  - apply estimateType_elementwise.
  - apply estimateType_never_singleton.
  - intros R dFxn c d. unfold autocast. eexists. eexists.
    split; [reflexivity|]. split.
    + intros a Ha. apply in_map_iff in Ha. destruct Ha as [x [<- _]].
      apply estimateType_never_singleton.
    + intros k a Hget. unfold dict_of_pairs in Hget.
      apply dict_update_get_source in Hget. destruct Hget as [H|H]; [discriminate|].
      apply in_map_iff in H. destruct H as [[i j] [Heq _]].
      inversion Heq; subst. apply estimateType_never_singleton.
Qed.

End Estimation.

(** A list of three strings is estimated element by element. *)
Lemma estimateType_unwraps_singleton_witness :
  List.length [VStr "1"; VStr "true"; VStr "x"] <> 1
  /\ estimateType (fun _ => None) (VList [VStr "1"; VStr "true"; VStr "x"])
     = VList [VInt 1; VBool true; VStr "x"].
Proof.
  assert (H : List.length [VStr "1"; VStr "true"; VStr "x"] <> 1) by discriminate.
  split; [exact H|].
  exact (proj1 (proj2 (proj2 (estimateType_unwraps_singleton (fun _ => None))))
               [VStr "1"; VStr "true"; VStr "x"] H).
Defined.

(** C10 as stated fails on a one-element list whose element is a list
    of two: the result is a list, and that is what the function under
    [autocast] receives. *)
Lemma estimateType_unwraps_singleton_counterexample :
  is_singleton_list (VList [VList [VStr "1"; VStr "2"]]) = true
  /\ (forall py_float,
        estimateType py_float (VList [VList [VStr "1"; VStr "2"]])
        = VList [VInt 1; VInt 2])
  /\ ~ (forall (py_float : string -> option string) (v : value),
          is_singleton_list v = true -> is_list (estimateType py_float v) = false).
Proof.
  split; [reflexivity|]. split; [reflexivity|].
  intros H.
  specialize (H (fun _ => None) (VList [VList [VStr "1"; VStr "2"]]) eq_refl).
  discriminate H.
Qed.
(** ** Sanity checks of the string functions *)

Example py_repr_sample :
  py_repr (VDict [("a", VList [VInt 1; VStr "x'y"; VNone]); ("b", VBool true)])
  = String.concat "" ["{'a': [1, "; str1 quote2; "x'y"; str1 quote2; ", None], 'b': True}"].
Proof. reflexivity. Qed.

Example py_int_samples :
  map py_int ["5"; " -12 "; "1_000"; "+7"; "007"; ""; "1__0"; "_1"; "1_"; "5.0"; "0x10"; "- 5"]
  = [Some 5; Some (-12); Some 1000; Some 7; Some 7; None; None; None; None; None; None; None]%Z.
Proof. reflexivity. Qed.


Example splitext_root_samples :
  map splitext_root ["net.py"; ".py"; "a.b.py"; "dir.x/file"; "dir/.hidden"; "plain"]
  = ["net"; ".py"; "a.b"; "dir.x/file"; "dir/.hidden"; "plain"].
Proof. reflexivity. Qed.

(** * Further properties *)

(** ** Lookups in the libraries *)

Section LookupMore.

Variable fs : string -> option tree.

(** X1.  [find_config] returns the path of the first directory of the
    walk, in its order, whose files list the name, joined with the
    name. *)
Theorem find_config_first_match
    (name path : string)
    (pre post : list (string * list string * list string))
    (root : string) (dirs files : list string) :
  os_walk fs path = pre ++ (root, dirs, files) :: post ->
  (forall t, In t pre -> mem name (snd t) = false) ->
  mem name files = true ->
  find_config fs name path = Some (os_path_join root [name]).
Proof.
  intros Hwalk Hpre Hin. unfold find_config.
  rewrite Hwalk, (find_first _ pre post (root, dirs, files)); auto.
Qed.

(** X2.  [find_config] returns [None], and raises nothing, exactly
    when no directory of the walk lists the name among its files:
    directories of that name do not count, and a base path that is no
    directory gives [None]. *)
Theorem find_config_none_iff (name path : string) :
  (find_config fs name path = None
   <-> forall t, In t (os_walk fs path) -> mem name (snd t) = false)
  /\ (fs path = None -> find_config fs name path = None).
Proof.
  assert (Hiff : find_config fs name path = None
                 <-> forall t, In t (os_walk fs path) -> mem name (snd t) = false).
  { unfold find_config. split.
    - intros H t Hin.
      destruct (find (fun triple => mem name (snd triple)) (os_walk fs path))
        as [[[r d] f]|] eqn:E; [discriminate|].
      exact (List.find_none _ _ E t Hin).
    - intros H. now rewrite find_none. }
  split; [exact Hiff|].
  intros Hfs. apply Hiff. unfold os_walk. rewrite Hfs. intros t [].
Qed.

(** X3.  [find_checkpoint] returns [None] exactly when no directory of
    the walk has a subdirectory of the run's name: a plain file of that
    name does not count, and a base path that is no directory gives
    [None]. *)
Theorem find_checkpoint_none_iff (run_id path : string) :
  (find_checkpoint fs run_id path = None
   <-> forall t, In t (os_walk fs path) -> mem run_id (snd (fst t)) = false)
  /\ (fs path = None -> find_checkpoint fs run_id path = None).
Proof.
  assert (Hiff : find_checkpoint fs run_id path = None
                 <-> forall t, In t (os_walk fs path) ->
                               mem run_id (snd (fst t)) = false).
  { unfold find_checkpoint. split.
    - intros H t Hin.
      destruct (find (fun triple => mem run_id (snd (fst triple))) (os_walk fs path))
        as [[[r d] f]|] eqn:E; [discriminate|].
      exact (List.find_none _ _ E t Hin).
    - intros H. now rewrite find_none. }
  split; [exact Hiff|].
  intros Hfs. apply Hiff. unfold os_walk. rewrite Hfs. intros t [].
Qed.

End LookupMore.

Lemma find_config_first_match_witness :
  find_config sample_fs "train.yaml" "/models/gnn"
  = Some "/models/gnn/configs/train.yaml".
Proof.
  assert (Hpre : forall t : string * list string * list string,
             In t [("/models/gnn", ["configs"], ["README.md"])] ->
             mem "train.yaml" (snd t) = false).
  { intros t [<-|[]]. reflexivity. }
  exact (find_config_first_match sample_fs "train.yaml" "/models/gnn"
           [("/models/gnn", ["configs"], ["README.md"])] []
           "/models/gnn/configs" [] ["train.yaml"] eq_refl Hpre eq_refl).
Defined.

Lemma find_config_none_iff_witness :
  find_config sample_fs "train.yaml" "/nowhere" = None.
Proof.
  exact (proj2 (find_config_none_iff sample_fs "train.yaml" "/nowhere") eq_refl).
Defined.

Lemma find_checkpoint_none_iff_witness :
  find_checkpoint sample_fs "run123" "/nowhere" = None.
Proof.
  exact (proj2 (find_checkpoint_none_iff sample_fs "run123" "/nowhere") eq_refl).
Defined.

(** ** The paths returned lie below the base path *)

Lemma tree_forall_ind (P : tree -> Prop) :
  (forall subdirs files,
      Forall (fun nt => P (snd nt)) subdirs -> P (Dir subdirs files)) ->
  forall t, P t.
Proof.
  intros H. fix IH 1. intros [subdirs files]. apply H.
  induction subdirs as [|[name sub] rest IHrest]; constructor.
  - apply IH.
  - exact IHrest.
Qed.

Lemma prefix_nil (s : string) : String.prefix "" s = true.
Proof. destruct s; reflexivity. Qed.

Lemma prefix_refl (s : string) : String.prefix s s = true.
Proof.
  induction s as [|c s IH]; simpl; [reflexivity|].
  destruct (ascii_dec c c); [exact IH | congruence].
Qed.

Lemma prefix_append (a b : string) : String.prefix a (a ++ b) = true.
Proof.
  induction a as [|c a IH]; simpl; [apply prefix_nil|].
  destruct (ascii_dec c c); [exact IH | congruence].
Qed.

Lemma prefix_trans (a b c : string) :
  String.prefix a b = true -> String.prefix b c = true -> String.prefix a c = true.
Proof.
  revert b c. induction a as [|x a IH]; intros b c Hab Hbc; [apply prefix_nil|].
  destruct b as [|y b]; [discriminate|]. destruct c as [|z c]; [discriminate|].
  simpl in *.
  destruct (ascii_dec x y); [subst y|discriminate].
  destruct (ascii_dec x z); [|discriminate].
  now apply (IH b c).
Qed.

Lemma no_sep_start (name : string) :
  has_char "/" name = false -> starts_with_sep name = false.
Proof.
  destruct name as [|c rest]; [reflexivity|].
  unfold has_char. simpl. intros H. apply orb_false_elim in H.
  destruct H as [H _]. now rewrite Ascii.eqb_sym.
Qed.

(** Joining a name that starts with no separator extends the path. *)
Lemma join_extends (top name : string) :
  starts_with_sep name = false ->
  String.prefix top (os_path_join top [name]) = true.
Proof.
  intros H. unfold os_path_join. simpl. rewrite H.
  destruct (String.eqb top "" || ends_with_sep top)%bool; apply prefix_append.
Qed.

Lemma walk_roots_below (t : tree) :
  forall top, names_ok t = true ->
  forall tr, In tr (walk top t) ->
    String.prefix top (fst (fst tr)) = true
    /\ forall d, In d (snd (fst tr)) -> has_char "/" d = false.
Proof.
  induction t as [subdirs files IH] using tree_forall_ind.
  intros top Hok tr Hin. simpl in Hok, Hin.
  rewrite forallb_forall in Hok.
  destruct Hin as [<-|Hin].
  - simpl. split; [apply prefix_refl|].
    intros d Hd. apply in_map_iff in Hd. destruct Hd as [[n s] [<- Hns]].
    specialize (Hok _ Hns). simpl in Hok. apply andb_prop in Hok.
    destruct Hok as [Hn _]. now apply negb_true_iff in Hn.
  - apply in_flat_map in Hin. destruct Hin as [[n s] [Hns Hin]].
    rewrite Forall_forall in IH. specialize (IH _ Hns). simpl in IH.
    specialize (Hok _ Hns). simpl in Hok. apply andb_prop in Hok.
    destruct Hok as [Hn Hs]. apply negb_true_iff in Hn.
    destruct (IH _ Hs _ Hin) as [Hp Hd]. split; [|exact Hd].
    eapply prefix_trans; [|exact Hp].
    apply join_extends. now apply no_sep_start.
Qed.

Lemma join_two_extends (root a b : string) :
  starts_with_sep a = false -> starts_with_sep b = false ->
  String.prefix root (os_path_join root [a; b]) = true.
Proof.
  intros Ha Hb.
  change (os_path_join root [a; b]) with (os_path_join (os_path_join root [a]) [b]).
  apply (prefix_trans _ (os_path_join root [a])); now apply join_extends.
Qed.

Section Below.

Variable fs : string -> option tree.

(** X4.  In a tree of proper directory names, whatever
    [find_checkpoint] and [find_config] return is a path that starts
    with the base path. *)
Theorem lookups_stay_below (path : string) (t : tree) :
  fs path = Some t ->
  names_ok t = true ->
  (forall run_id p,
      find_checkpoint fs run_id path = Some p -> String.prefix path p = true)
  /\ (forall name p,
      has_char "/" name = false ->
      find_config fs name path = Some p -> String.prefix path p = true).
Proof.
  intros Hfs Hok. split.
  - intros run_id p. unfold find_checkpoint.
    destruct (find (fun triple => mem run_id (snd (fst triple))) (os_walk fs path))
      as [[[root dirs] files]|] eqn:E; [|discriminate].
    apply find_some in E. destruct E as [Hin Hmem]. cbn [fst snd] in Hmem.
    unfold os_walk in Hin. rewrite Hfs in Hin.
    destruct (walk_roots_below t path Hok _ Hin) as [Hp Hd]. cbn [fst snd] in Hp, Hd.
    assert (Hgoal : String.prefix path
                      (os_path_join root [run_id; "checkpoints/last.ckpt"]) = true).
    { apply (prefix_trans _ root); [exact Hp|].
      apply join_two_extends; [|reflexivity].
      apply no_sep_start. apply Hd. now apply mem_In. }
    intros H. injection H as <-. exact Hgoal.
  - intros name p Hname. unfold find_config.
    destruct (find (fun triple => mem name (snd triple)) (os_walk fs path))
      as [[[root dirs] files]|] eqn:E; [|discriminate].
    apply find_some in E. destruct E as [Hin _].
    unfold os_walk in Hin. rewrite Hfs in Hin.
    destruct (walk_roots_below t path Hok _ Hin) as [Hp _]. cbn [fst snd] in Hp.
    assert (Hgoal : String.prefix path (os_path_join root [name]) = true).
    { apply (prefix_trans _ root); [exact Hp|].
      apply join_extends. now apply no_sep_start. }
    intros H. injection H as <-. exact Hgoal.
Qed.

End Below.

Lemma lookups_stay_below_witness :
  String.prefix "/artifacts" "/artifacts/run123/checkpoints/last.ckpt" = true.
Proof.
  exact (proj1 (lookups_stay_below sample_fs "/artifacts" _ eq_refl eq_refl)
               "run123" "/artifacts/run123/checkpoints/last.ckpt" eq_refl).
Defined.

(** ** More on the resolution of a configuration *)

Lemma mem_app (x : string) (l1 l2 : list string) :
  mem x (l1 ++ l2) = (mem x l1 || mem x l2)%bool.
Proof. unfold mem. apply existsb_app. Qed.

Lemma mem_false (x : string) (l : list string) : mem x l = false <-> ~ In x l.
Proof.
  rewrite <- mem_In. destruct (mem x l); split; intros H; congruence.
Qed.

Lemma keys_dict_set (k : string) (v : value) (d : dict) :
  keys (dict_set k v d) = if mem k (keys d) then keys d else keys d ++ [k].
Proof.
  destruct (mem k (keys d)) eqn:E.
  - apply keys_dict_set_in. now apply mem_In.
  - apply mem_false in E. rewrite dict_set_fresh by assumption.
    unfold keys. now rewrite map_app.
Qed.

(** [update] keeps every key of the dictionary where it is and puts
    the new keys behind, in the order of the argument. *)
Lemma dict_update_keys (other : dict) :
  dict_wf other ->
  forall d, keys (dict_update d other) = keys d ++ fresh_keys d other.
Proof.
  unfold dict_update, fresh_keys.
  induction other as [|[k v] rest IH]; intros Hwf d; simpl.
  - now rewrite app_nil_r.
  - inversion Hwf as [|? ? Hk Hrest]; subst.
    rewrite (IH Hrest). rewrite keys_dict_set.
    destruct (mem k (keys d)) eqn:E; simpl.
    + reflexivity.
    + rewrite <- app_assoc. simpl. do 2 f_equal.
      apply filter_ext_in. intros k' Hk'.
      rewrite mem_app. simpl. rewrite orb_false_r.
      destruct (String.eqb k' k) eqn:Ek; [|now rewrite orb_false_r].
      apply String.eqb_eq in Ek. subst k'. contradiction.
Qed.

(** What [load_config] leaves under a key other than [inference],
    given the base configuration. *)
Lemma load_config_lookup
    (fs : string -> option tree)
    (read_yaml torch_load : option string -> result value)
    (stage : dict) (resume_id : option string) (project_config run_args : dict)
    (base libs : dict) (batch : value) :
  load_base fs read_yaml torch_load stage resume_id project_config = Ok base ->
  dict_wf stage ->
  (dict_get "override" stage = None
   \/ exists o, dict_get "override" stage = Some (VDict o) /\ dict_wf o) ->
  dict_get "libraries" project_config = Some (VDict libs) ->
  dict_wf libs ->
  dict_get "batch" run_args = Some batch ->
  exists config,
    load_config fs read_yaml torch_load stage resume_id project_config run_args
    = Ok config
    /\ forall k, k <> "inference" ->
                 dict_get k config
                 = last_writer k [base; override_layer stage; libs; stage].
Proof.
  intros Hbase Hstage Hov Hlibs Hwf Hbatch.
  assert (Hov' : dict_get "override" stage = None
                 \/ exists o, dict_get "override" stage = Some (VDict o)).
  { destruct Hov as [H | [o [H _]]]; eauto. }
  pose proof (merge_layers_result base stage project_config libs Hov' Hlibs) as Hm.
  pose proof (override_layer_wf stage Hov) as Ho.
  destruct (inference_policy_total
              (dict_update
                 (dict_update (dict_update base (override_layer stage)) libs) stage)
              run_args batch Hbatch) as [config Hc].
  exists config. split.
  - unfold load_config. rewrite Hbase. cbn [bind]. rewrite Hm. exact Hc.
  - intros k Hk.
    rewrite (inference_policy_other_keys _ run_args config k Hc Hk).
    now apply last_writer_updates.
Qed.

Section ResolutionMore.

Variable fs : string -> option tree.
Variable read_yaml : option string -> result value.
Variable torch_load : option string -> result value.

(** X5.  When no file of the stage's configuration name lies below
    [model_library/set], [find_config] gives [None], the reader is
    called on [None], and [load_config] fails with the reader's error:
    no error of its own is raised for the missing file. *)
Theorem load_config_missing_config_file
    (stage project_config run_args libs : dict)
    (name model_library set_name : string) (e : exn) :
  dict_get "config" stage = Some (VStr name) ->
  dict_get "set" stage = Some (VStr set_name) ->
  dict_get "libraries" project_config = Some (VDict libs) ->
  dict_get "model_library" libs = Some (VStr model_library) ->
  (forall t, In t (os_walk fs (os_path_join model_library [set_name])) ->
             mem name (snd t) = false) ->
  read_yaml None = Err e ->
  load_config fs read_yaml torch_load stage None project_config run_args = Err e.
Proof.
  intros Hname Hset Hlibs Hml Hnone Hread.
  unfold load_config, load_base, getitem, subscript, getitem.
  rewrite Hname, Hlibs. cbn [bind]. rewrite Hml, Hset. cbn [bind as_str].
  unfold find_config. rewrite find_none by exact Hnone.
  rewrite Hread. reflexivity.
Qed.

(** X6.  A stage read from its file takes [logger] from the project
    and [resume_id] as [None], whatever the file says of them; every
    other key of the file is kept.  Unless the override, the libraries
    or the stage descriptor hold a [logger] of their own, the resolved
    configuration has the project's. *)
Theorem load_config_file_logger
    (stage project_config run_args libs file : dict)
    (name model_library set_name path : string) (logger batch : value) :
  dict_get "config" stage = Some (VStr name) ->
  dict_get "set" stage = Some (VStr set_name) ->
  dict_get "libraries" project_config = Some (VDict libs) ->
  dict_get "model_library" libs = Some (VStr model_library) ->
  find_config fs name (os_path_join model_library [set_name]) = Some path ->
  read_yaml (Some path) = Ok (VDict file) ->
  dict_get "logger" project_config = Some logger ->
  dict_wf stage ->
  (dict_get "override" stage = None
   \/ exists o, dict_get "override" stage = Some (VDict o) /\ dict_wf o) ->
  dict_wf libs ->
  dict_get "batch" run_args = Some batch ->
  exists base config,
    load_base fs read_yaml torch_load stage None project_config = Ok base
    /\ dict_get "logger" base = Some logger
    /\ dict_get "resume_id" base = Some VNone
    /\ (forall k, k <> "logger" -> k <> "resume_id" ->
                  dict_get k base = dict_get k file)
    /\ load_config fs read_yaml torch_load stage None project_config run_args
       = Ok config
    /\ (dict_get "logger" (override_layer stage) = None ->
        dict_get "logger" libs = None ->
        dict_get "logger" stage = None ->
        dict_get "logger" config = Some logger).
Proof.
  intros Hname Hset Hlibs Hml Hfind Hread Hlogger Hstage Hov Hwf Hbatch.
  assert (Hbase : load_base fs read_yaml torch_load stage None project_config
                  = Ok (dict_set "resume_id" VNone (dict_set "logger" logger file))).
  { unfold load_base, getitem, subscript, getitem.
    rewrite Hname, Hlibs. cbn [bind]. rewrite Hml, Hset. cbn [bind as_str].
    rewrite Hfind, Hread. cbn [bind]. rewrite Hlogger. reflexivity. }
  destruct (load_config_lookup fs read_yaml torch_load stage None project_config
              run_args _ libs batch Hbase Hstage Hov Hlibs Hwf Hbatch)
    as [config [Hconfig Hlook]].
  eexists. exists config. split; [exact Hbase|]. split; [|split; [|split; [|split]]].
  - rewrite dict_get_set_other by discriminate. apply dict_get_set_same.
  - apply dict_get_set_same.
  - intros k Hk1 Hk2. now rewrite !dict_get_set_other by congruence.
  - exact Hconfig.
  - intros Ho Hl Hs. rewrite Hlook by discriminate.
    unfold last_writer. simpl. rewrite Ho, Hl, Hs.
    rewrite dict_get_set_other by discriminate. now rewrite dict_get_set_same.
Qed.

(** X7.  A resumed stage takes its base from the hyper-parameters of
    the checkpoint and records the path of the checkpoint under
    [checkpoint_path]; the project's [logger] is not consulted.  Unless
    a later layer holds [checkpoint_path], the resolved configuration
    has the path that [find_checkpoint] returned. *)
Theorem load_config_resume_checkpoint_path
    (stage project_config run_args libs ckpnt hyper_parameters : dict)
    (run_id artifact_library path : string) (batch : value) :
  dict_get "libraries" project_config = Some (VDict libs) ->
  dict_get "artifact_library" libs = Some (VStr artifact_library) ->
  find_checkpoint fs run_id artifact_library = Some path ->
  torch_load (Some path) = Ok (VDict ckpnt) ->
  dict_get "hyper_parameters" ckpnt = Some (VDict hyper_parameters) ->
  dict_wf stage ->
  (dict_get "override" stage = None
   \/ exists o, dict_get "override" stage = Some (VDict o) /\ dict_wf o) ->
  dict_wf libs ->
  dict_get "batch" run_args = Some batch ->
  exists config,
    load_base fs read_yaml torch_load stage (Some run_id) project_config
    = Ok (dict_set "checkpoint_path" (VStr path) hyper_parameters)
    /\ load_config fs read_yaml torch_load stage (Some run_id) project_config run_args
       = Ok config
    /\ (dict_get "checkpoint_path" (override_layer stage) = None ->
        dict_get "checkpoint_path" libs = None ->
        dict_get "checkpoint_path" stage = None ->
        dict_get "checkpoint_path" config = Some (VStr path))
    /\ (dict_get "logger" (override_layer stage) = None ->
        dict_get "logger" libs = None ->
        dict_get "logger" stage = None ->
        dict_get "logger" config = dict_get "logger" hyper_parameters).
Proof.
  intros Hlibs Hal Hfind Hload Hhp Hstage Hov Hwf Hbatch.
  assert (Hbase : load_base fs read_yaml torch_load stage (Some run_id) project_config
                  = Ok (dict_set "checkpoint_path" (VStr path) hyper_parameters)).
  { unfold load_base, getitem, subscript, getitem.
    rewrite Hlibs. cbn [bind]. rewrite Hal. cbn [bind as_str].
    rewrite Hfind, Hload. cbn [bind]. rewrite Hhp. reflexivity. }
  destruct (load_config_lookup fs read_yaml torch_load stage (Some run_id)
              project_config run_args _ libs batch Hbase Hstage Hov Hlibs Hwf Hbatch)
    as [config [Hconfig Hlook]].
  exists config. split; [exact Hbase|]. split; [exact Hconfig|]. split.
  - intros Ho Hl Hs. rewrite Hlook by discriminate.
    unfold last_writer. simpl. rewrite Ho, Hl, Hs.
    now rewrite dict_get_set_same.
  - intros Ho Hl Hs. rewrite Hlook by discriminate.
    unfold last_writer. simpl. rewrite Ho, Hl, Hs.
    rewrite dict_get_set_other by discriminate.
    destruct (dict_get "logger" hyper_parameters); reflexivity.
Qed.

(** X30.  The fields of the stage descriptor always reach the
    resolved configuration (the flag [inference] apart).  For a stage
    read from its file, the [resume_id] of the result is the one
    [get_resume_id] reads off the stage, [None] when the stage has
    none, unless the override or the libraries hold that key. *)
Theorem load_config_stage_fields
    (stage project_config run_args libs file : dict)
    (name model_library set_name path : string) (logger batch : value) :
  dict_get "config" stage = Some (VStr name) ->
  dict_get "set" stage = Some (VStr set_name) ->
  dict_get "libraries" project_config = Some (VDict libs) ->
  dict_get "model_library" libs = Some (VStr model_library) ->
  find_config fs name (os_path_join model_library [set_name]) = Some path ->
  read_yaml (Some path) = Ok (VDict file) ->
  dict_get "logger" project_config = Some logger ->
  dict_wf stage ->
  (dict_get "override" stage = None
   \/ exists o, dict_get "override" stage = Some (VDict o) /\ dict_wf o) ->
  dict_wf libs ->
  dict_get "batch" run_args = Some batch ->
  exists config,
    load_config fs read_yaml torch_load stage None project_config run_args = Ok config
    /\ (forall k v, k <> "inference" -> dict_get k stage = Some v ->
                    dict_get k config = Some v)
    /\ (dict_get "resume_id" (override_layer stage) = None ->
        dict_get "resume_id" libs = None ->
        dict_get "resume_id" config = Some (get_resume_id stage)).
Proof.
  intros Hname Hset Hlibs Hml Hfind Hread Hlogger Hstage Hov Hwf Hbatch.
  assert (Hbase : load_base fs read_yaml torch_load stage None project_config
                  = Ok (dict_set "resume_id" VNone (dict_set "logger" logger file))).
  { unfold load_base, getitem, subscript, getitem.
    rewrite Hname, Hlibs. cbn [bind]. rewrite Hml, Hset. cbn [bind as_str].
    rewrite Hfind, Hread. cbn [bind]. rewrite Hlogger. reflexivity. }
  destruct (load_config_lookup fs read_yaml torch_load stage None project_config
              run_args _ libs batch Hbase Hstage Hov Hlibs Hwf Hbatch)
    as [config [Hconfig Hlook]].
  exists config. split; [exact Hconfig|]. split.
  - intros k v Hk Hv. rewrite (Hlook k Hk).
    unfold last_writer. simpl. now rewrite Hv.
  - intros Ho Hl. rewrite Hlook by discriminate.
    unfold last_writer, get_resume_id. simpl. rewrite Ho, Hl.
    rewrite dict_get_set_same.
    destruct (dict_get "resume_id" stage); reflexivity.
Qed.

End ResolutionMore.

(** X8.  The three updates never move a key: the keys of the base
    configuration come first, in their order, then the keys that the
    override brings, then those of the libraries, then those of the
    stage descriptor.  This is the order in which [combo_config]
    iterates and [dict_to_args] writes. *)
Theorem merge_layers_key_order (base stage project_config libs : dict) :
  dict_wf stage ->
  (dict_get "override" stage = None
   \/ exists o, dict_get "override" stage = Some (VDict o) /\ dict_wf o) ->
  dict_get "libraries" project_config = Some (VDict libs) ->
  dict_wf libs ->
  exists merged,
    merge_layers base stage project_config = Ok merged
    /\ keys merged
       = keys base
         ++ fresh_keys base (override_layer stage)
         ++ fresh_keys (dict_update base (override_layer stage)) libs
         ++ fresh_keys (dict_update (dict_update base (override_layer stage)) libs)
                       stage.
Proof.
  intros Hstage Hov Hlibs Hwf.
  assert (Hov' : dict_get "override" stage = None
                 \/ exists o, dict_get "override" stage = Some (VDict o)).
  { destruct Hov as [H | [o [H _]]]; eauto. }
  pose proof (override_layer_wf stage Hov) as Ho.
  eexists. split;
    [exact (merge_layers_result base stage project_config libs Hov' Hlibs)|].
  rewrite !dict_update_keys by assumption.
  now rewrite <- !app_assoc.
Qed.

Lemma sample_override_ok :
  dict_get "override" sample_stage = None
  \/ exists o, dict_get "override" sample_stage = Some (VDict o) /\ dict_wf o.
Proof.
  right. exists [("lr", VFloat "0.01")]. split; [reflexivity|].
  exact (keys_distinct_wf [("lr", VFloat "0.01")] eq_refl).
Defined.

Lemma sample_no_missing_yaml :
  forall t, In t (os_walk sample_fs (os_path_join "/models" ["gnn"])) ->
            mem "missing.yaml" (snd t) = false.
Proof.
  intros t Hin. vm_compute in Hin.
  repeat (destruct Hin as [<-|Hin]; [reflexivity|]). destruct Hin.
Defined.

Lemma load_config_missing_config_file_witness :
  load_config sample_fs sample_read_yaml sample_torch_load
              sample_stage_missing None sample_project_config sample_run_args
  = Err TypeError.
Proof.
  exact (load_config_missing_config_file
           sample_fs sample_read_yaml sample_torch_load
           sample_stage_missing sample_project_config sample_run_args
           sample_libraries "missing.yaml" "/models" "gnn" TypeError
           eq_refl eq_refl eq_refl eq_refl sample_no_missing_yaml eq_refl).
Defined.

(** The file says [tb], the project [wandb]: the project wins. *)
Lemma load_config_file_logger_witness :
  exists base config,
    load_base sample_fs sample_read_yaml sample_torch_load
              sample_stage None sample_project_config = Ok base
    /\ dict_get "logger" base = Some (VStr "wandb")
    /\ load_config sample_fs sample_read_yaml sample_torch_load
                   sample_stage None sample_project_config sample_run_args
       = Ok config
    /\ dict_get "logger" config = Some (VStr "wandb").
Proof.
  destruct (load_config_file_logger
              sample_fs sample_read_yaml sample_torch_load
              sample_stage sample_project_config sample_run_args sample_libraries
              [("lr", VFloat "0.001"); ("inference", VBool false); ("logger", VStr "tb")]
              "train.yaml" "/models" "gnn" "/models/gnn/configs/train.yaml"
              (VStr "wandb") (VBool false)
              eq_refl eq_refl eq_refl eq_refl eq_refl eq_refl eq_refl
              (keys_distinct_wf sample_stage eq_refl) sample_override_ok
              (keys_distinct_wf sample_libraries eq_refl) eq_refl)
    as [base [config [Hb [Hl [_ [_ [Hc Hlog]]]]]]].
  exists base, config. split; [exact Hb|]. split; [exact Hl|]. split; [exact Hc|].
  exact (Hlog eq_refl eq_refl eq_refl).
Defined.

Lemma load_config_resume_checkpoint_path_witness :
  exists config,
    load_config sample_fs sample_read_yaml sample_torch_load
                sample_stage (Some "run123") sample_project_config sample_run_args
    = Ok config
    /\ dict_get "checkpoint_path" config
       = Some (VStr "/artifacts/run123/checkpoints/last.ckpt").
Proof.
  destruct (load_config_resume_checkpoint_path
              sample_fs sample_read_yaml sample_torch_load
              sample_stage sample_project_config sample_run_args sample_libraries
              [("hyper_parameters",
                VDict [("lr", VFloat "0.001"); ("set", VStr "old")])]
              [("lr", VFloat "0.001"); ("set", VStr "old")]
              "run123" "/artifacts" "/artifacts/run123/checkpoints/last.ckpt"
              (VBool false)
              eq_refl eq_refl eq_refl eq_refl eq_refl
              (keys_distinct_wf sample_stage eq_refl) sample_override_ok
              (keys_distinct_wf sample_libraries eq_refl) eq_refl)
    as [config [_ [Hc [Hpath _]]]].
  exists config. split; [exact Hc|].
  exact (Hpath eq_refl eq_refl eq_refl).
Defined.

Lemma merge_layers_key_order_witness :
  exists merged,
    merge_layers sample_base sample_stage sample_project_config = Ok merged
    /\ keys merged
       = ["lr"; "inference"; "logger"; "resume_id";
          "model_library"; "artifact_library";
          "set"; "config"; "override"; "batch_config"].
Proof.
  exact (merge_layers_key_order sample_base sample_stage sample_project_config
           sample_libraries
           (keys_distinct_wf sample_stage eq_refl) sample_override_ok eq_refl
           (keys_distinct_wf sample_libraries eq_refl)).
Defined.

Lemma load_config_stage_fields_witness :
  exists config,
    load_config sample_fs sample_read_yaml sample_torch_load
                sample_stage None sample_project_config sample_run_args
    = Ok config
    /\ dict_get "set" config = Some (VStr "gnn")
    /\ dict_get "resume_id" config = Some VNone.
Proof.
  destruct (load_config_stage_fields
              sample_fs sample_read_yaml sample_torch_load
              sample_stage sample_project_config sample_run_args sample_libraries
              [("lr", VFloat "0.001"); ("inference", VBool false); ("logger", VStr "tb")]
              "train.yaml" "/models" "gnn" "/models/gnn/configs/train.yaml"
              (VStr "wandb") (VBool false)
              eq_refl eq_refl eq_refl eq_refl eq_refl eq_refl eq_refl
              (keys_distinct_wf sample_stage eq_refl) sample_override_ok
              (keys_distinct_wf sample_libraries eq_refl) eq_refl)
    as [config [Hc [Hstage Hres]]].
  assert (Hk : "set" <> "inference") by discriminate.
  exists config. split; [exact Hc|]. split.
  - exact (Hstage "set" (VStr "gnn") Hk eq_refl).
  - exact (Hres eq_refl eq_refl).
Defined.

(** ** More on the sweep and on the serialization *)

Lemma sweep_spec_single (config : dict) :
  (forall k v, In (k, v) config -> List.length (axis v) = 1) ->
  sweep_spec config
  = [map (fun kv => (fst kv, hd VNone (axis (snd kv)))) config].
Proof.
  induction config as [|[k v] rest IH]; intros H; simpl; [reflexivity|].
  rewrite IH by (intros k' v' Hin; apply (H k' v'); simpl; tauto).
  pose proof (H k v (or_introl eq_refl)) as Hlen.
  destruct (axis v) as [|x [|y l]]; simpl in Hlen; try discriminate.
  reflexivity.
Qed.

Lemma map_unwrap_scalars (config : dict) :
  (forall k v, In (k, v) config -> is_list v = false) ->
  map (fun kv => (fst kv, hd VNone (axis (snd kv)))) config = config.
Proof.
  induction config as [|[k v] rest IH]; intros H; simpl; [reflexivity|].
  rewrite IH by (intros k' v' Hin; apply (H k' v'); simpl; tauto).
  pose proof (H k v (or_introl eq_refl)) as Hv.
  destruct v; simpl in *; try reflexivity; discriminate.
Qed.

(** X9.  When every value is a scalar or a one-element list there is
    exactly one run; it has the scalars as they are and, for a
    one-element list, the element.  A list value therefore reaches the
    run as a list when it is wrapped in a one-element list, and a
    configuration of scalars only expands to itself. *)
Theorem combo_config_single_run (config : dict) :
  dict_wf config ->
  config <> [] ->
  (forall k v, In (k, v) config -> List.length (axis v) = 1) ->
  combo_config config
  = Ok [map (fun kv => (fst kv, hd VNone (axis (snd kv)))) config]
  /\ ((forall k v, In (k, v) config -> is_list v = false) ->
      combo_config config = Ok [config]).
Proof.
  intros Hwf Hne Hone.
  rewrite (combo_config_nonempty config Hwf Hne), (sweep_spec_single config Hone).
  split; [reflexivity|].
  intros Hsc. now rewrite map_unwrap_scalars.
Qed.

Lemma combo_config_single_run_witness :
  combo_config sample_protected
  = Ok [[("lr", VFloat "0.01"); ("callbacks", VList [VStr "a"; VStr "b"])]].
Proof.
  assert (Hone : forall k v, In (k, v) sample_protected -> List.length (axis v) = 1).
  { intros k v [H|[H|[]]]; inversion H; reflexivity. }
  assert (Hne : sample_protected <> []) by discriminate.
  exact (proj1 (combo_config_single_run sample_protected
                  (keys_distinct_wf sample_protected eq_refl) Hne Hone)).
Defined.

Lemma NoDup_map_injective {A B : Type} (f : A -> B) (l : list A) :
  (forall a a', f a = f a' -> a = a') -> NoDup l -> NoDup (map f l).
Proof.
  intros Hinj Hl. induction Hl as [|a l Ha Hl IH]; simpl; constructor; [|exact IH].
  intros Hin. apply in_map_iff in Hin. destruct Hin as [a' [Heq Hin]].
  apply Hinj in Heq. now subst.
Qed.

Lemma NoDup_cons_product {A B : Type} (k : A) (axis_k : list B) (runs : list (list (A * B))) :
  NoDup axis_k -> NoDup runs ->
  NoDup (flat_map (fun x => map (cons (k, x)) runs) axis_k).
Proof.
  intros Hax Hruns. induction axis_k as [|x rest IH]; simpl; [constructor|].
  inversion Hax as [|? ? Hx Hrest]; subst.
  apply NoDup_app.
  - apply NoDup_map_injective; [|exact Hruns].
    intros r r' H. now inversion H.
  - now apply IH.
  - intros run Hin Hin'.
    apply in_map_iff in Hin. destruct Hin as [r [<- _]].
    apply in_flat_map in Hin'. destruct Hin' as [x' [Hx' Hin']].
    apply in_map_iff in Hin'. destruct Hin' as [r' [Heq _]].
    inversion Heq; subst. contradiction.
Qed.

Lemma sweep_spec_NoDup (config : dict) :
  (forall k v, In (k, v) config -> NoDup (axis v)) ->
  NoDup (sweep_spec config).
Proof.
  induction config as [|[k v] rest IH]; intros H; simpl.
  - repeat constructor. intros [].
  - apply NoDup_cons_product.
    + apply (H k v). simpl. tauto.
    + apply IH. intros k' v' Hin. apply (H k' v'). simpl. tauto.
Qed.

(** X10.  When no axis lists a value twice, no two runs of the sweep
    are the same configuration. *)
Theorem combo_config_distinct_runs (config : dict) :
  dict_wf config ->
  config <> [] ->
  (forall k v, In (k, v) config -> NoDup (axis v)) ->
  exists runs, combo_config config = Ok runs /\ NoDup runs.
Proof.
  intros Hwf Hne Hax. exists (sweep_spec config).
  split; [now apply combo_config_nonempty | now apply sweep_spec_NoDup].
Qed.

Lemma combo_config_distinct_runs_witness :
  exists runs, combo_config sample_sweep = Ok runs /\ NoDup runs.
Proof.
  assert (Hax : forall k v, In (k, v) sample_sweep -> NoDup (axis v)).
  { intros k v [H|[H|[]]]; inversion H; simpl.
    - constructor; [intros [E|[]]; discriminate E|]. constructor; [intros []|constructor].
    - constructor; [intros []|constructor]. }
  assert (Hne : sample_sweep <> []) by discriminate.
  exact (combo_config_distinct_runs sample_sweep
           (keys_distinct_wf sample_sweep eq_refl) Hne Hax).
Defined.

Lemma arg_tokens_leaves (run : dict) :
  (forall k x, In (k, x) run -> is_leaf x = true) ->
  arg_tokens run
  = flat_map (fun kv => [("--" ++ fst kv)%string; py_str (snd kv)]) run.
Proof.
  intros H. rewrite arg_tokens_per_key.
  induction run as [|[k x] rest IH]; [reflexivity|].
  cbn [flat_map fst snd].
  rewrite IH by (intros k' x' Hin; apply (H k' x'); simpl; tauto).
  rewrite (collapse_leaf x) by (apply (H k x); simpl; tauto).
  reflexivity.
Qed.

Lemma flat_axis_leaves (v x : value) :
  is_flat v = true -> In x (axis v) -> is_leaf x = true.
Proof.
  destruct v; simpl; intros Hf Hin;
    try (destruct Hin as [<-|[]]; reflexivity); try discriminate.
  rewrite forallb_forall in Hf. now apply Hf.
Qed.

(** X11.  When every value of a configuration is a scalar or a list of
    scalars, every run of its sweep serializes to exactly one flag and
    one value per key, in key order: the [--key value] contract of the
    submission. *)
Theorem combo_config_runs_serialize_in_pairs (config : dict) :
  dict_wf config ->
  config <> [] ->
  forallb (fun kv => is_flat (snd kv)) config = true ->
  exists runs,
    combo_config config = Ok runs
    /\ forall run, In run runs ->
         arg_tokens run
         = flat_map (fun kv => [("--" ++ fst kv)%string; py_str (snd kv)]) run
         /\ map fst run = keys config
         /\ List.length (arg_tokens run) = 2 * List.length config.
Proof.
  intros Hwf Hne Hflat. exists (sweep_spec config).
  split; [now apply combo_config_nonempty|].
  intros run Hrun.
  assert (Hleaves : forall k x, In (k, x) run -> is_leaf x = true).
  { intros k x Hin.
    destruct (sweep_spec_values config run k x Hrun Hin) as [v [Hv Hx]].
    rewrite forallb_forall in Hflat.
    exact (flat_axis_leaves v x (Hflat _ Hv) Hx). }
  pose proof (sweep_spec_keys config run Hrun) as Hkeys.
  split; [now apply arg_tokens_leaves|]. split; [exact Hkeys|].
  rewrite (arg_tokens_leaves run Hleaves).
  assert (Hlen : List.length run = List.length config).
  { unfold keys in Hkeys. rewrite <- (length_map fst run), Hkeys. apply length_map. }
  rewrite <- Hlen. clear. induction run as [|kv run IH]; [reflexivity|].
  cbn [flat_map List.length app]. lia.
Qed.

Lemma combo_config_runs_serialize_in_pairs_witness :
  exists runs,
    combo_config sample_sweep = Ok runs
    /\ forall run, In run runs ->
         arg_tokens run
         = flat_map (fun kv => [("--" ++ fst kv)%string; py_str (snd kv)]) run
         /\ map fst run = ["a"; "b"]
         /\ List.length (arg_tokens run) = 4.
Proof.
  assert (Hne : sample_sweep <> []) by discriminate.
  exact (combo_config_runs_serialize_in_pairs sample_sweep
           (keys_distinct_wf sample_sweep eq_refl) Hne eq_refl).
Defined.

(** X12.  For an entry whose value is a mapping, [dict_to_args] writes
    the flag and then the keys of the mapping only: the values inside
    it never reach the command line. *)
Theorem dict_to_args_mapping_keys_only (pre post : dict) (k : string) (d : dict) :
  arg_tokens (pre ++ (k, VDict d) :: post)
  = arg_tokens pre ++ (("--" ++ k)%string :: keys d) ++ arg_tokens post.
Proof.
  rewrite !arg_tokens_per_key, flat_map_app. cbn [flat_map fst snd collapse].
  rewrite map_map. reflexivity.
Qed.

(** ** Round trip of values through the command line *)

Lemma int_digits_print (d : Decimal.uint) :
  forall (acc : Z) (b : bool),
    d <> Decimal.Nil \/ b = true ->
    int_digits (list_ascii_of_string (NilEmpty.string_of_uint d)) acc b
    = Some (uint_acc d acc).
Proof.
  induction d; intros acc b Hb;
    try (cbn [NilEmpty.string_of_uint list_ascii_of_string int_digits uint_acc];
         change (is_digit _) with true; cbv iota;
         rewrite IHd by (now right); reflexivity).
  simpl. destruct Hb as [H | ->]; [congruence | reflexivity].
Qed.

Lemma uint_acc_of_lu (d : Decimal.uint) :
  forall d', Z.of_N (DecimalPos.Unsigned.of_lu (Decimal.revapp d d'))
             = uint_acc d (Z.of_N (DecimalPos.Unsigned.of_lu d')).
Proof.
  induction d; intros d'; cbn [Decimal.revapp uint_acc]; [reflexivity|..];
    rewrite IHd; f_equal; cbn [DecimalPos.Unsigned.of_lu];
    rewrite ?N2Z.inj_add, N2Z.inj_mul; simpl Z.of_N; lia.
Qed.

Lemma uint_acc_value (d : Decimal.uint) :
  uint_acc d 0 = Z.of_N (Pos.of_uint d).
Proof.
  rewrite DecimalPos.Unsigned.of_uint_alt. unfold Decimal.rev.
  now rewrite uint_acc_of_lu.
Qed.

Lemma digits_no_space (d : Decimal.uint) :
  Forall (fun c => is_space c = false)
         (list_ascii_of_string (NilEmpty.string_of_uint d)).
Proof.
  induction d; simpl; constructor; auto.
Qed.

Lemma lstrip_id (cs : list ascii) :
  Forall (fun c => is_space c = false) cs -> lstrip cs = cs.
Proof.
  intros H. destruct H as [|c cs Hc _]; simpl; [reflexivity|]. now rewrite Hc.
Qed.

Lemma strip_id (cs : list ascii) :
  Forall (fun c => is_space c = false) cs -> strip cs = cs.
Proof.
  intros H. unfold strip. rewrite (lstrip_id cs H).
  rewrite lstrip_id by (now apply Forall_rev). apply rev_involutive.
Qed.

Lemma py_int_unsigned (d : Decimal.uint) :
  d <> Decimal.Nil ->
  py_int (NilEmpty.string_of_uint d) = Some (uint_acc d 0).
Proof.
  intros Hd. unfold py_int. rewrite strip_id by apply digits_no_space.
  pose proof (int_digits_print d 0 false (or_introl Hd)) as H.
  destruct d; [congruence|..]; exact H.
Qed.

Lemma py_int_signed (d : Decimal.uint) :
  d <> Decimal.Nil ->
  py_int (String "-" (NilEmpty.string_of_uint d)) = Some (- uint_acc d 0)%Z.
Proof.
  intros Hd. unfold py_int.
  cbn [list_ascii_of_string].
  rewrite strip_id by (constructor; [reflexivity | apply digits_no_space]).
  cbv iota.
  now rewrite (int_digits_print d 0 false (or_introl Hd)).
Qed.

(** [int] reads back what [str] writes of an integer. *)
Lemma py_int_str_of_Z (z : Z) : py_int (str_of_Z z) = Some z.
Proof.
  unfold str_of_Z. destruct z as [|p|p]; [reflexivity|..];
    cbn [Z.to_int NilZero.string_of_int];
    pose proof (DecimalPos.Unsigned.to_uint_nonnil p) as Hnil;
    unfold NilZero.string_of_uint;
    destruct (Pos.to_uint p) eqn:E; try congruence; rewrite <- E in *.
  all: first
    [ rewrite py_int_unsigned by assumption
    | rewrite py_int_signed by assumption ];
    rewrite uint_acc_value, DecimalPos.Unsigned.of_to; reflexivity.
Qed.

Lemma str_of_Z_first (z : Z) :
  exists c rest, str_of_Z z = String c rest
                 /\ (is_digit c = true \/ c = "-"%char).
Proof.
  unfold str_of_Z. destruct z as [|p|p]; cbn [Z.to_int NilZero.string_of_int].
  - exists "0"%char, ""%string. split; [reflexivity | now left].
  - unfold NilZero.string_of_uint.
    destruct (Pos.to_uint p); cbn [NilEmpty.string_of_uint];
      eexists; eexists; (split; [reflexivity | now left]).
  - eexists; eexists. split; [reflexivity | now right].
Qed.

Lemma not_keyword (c : ascii) (rest : string) :
  is_digit c = true \/ c = "-"%char ->
  nullify (String c rest) = Err ValueError
  /\ boolify (String c rest) = Err ValueError.
Proof.
  intros H. unfold nullify, boolify. cbn [String.eqb].
  assert (HN : Ascii.eqb c "N" = false /\ Ascii.eqb c "n" = false
               /\ Ascii.eqb c "T" = false /\ Ascii.eqb c "t" = false
               /\ Ascii.eqb c "F" = false /\ Ascii.eqb c "f" = false).
  { destruct H as [H | ->]; [|repeat split; reflexivity].
    destruct c as [[] [] [] [] [] [] [] []]; try discriminate H;
      repeat split; reflexivity. }
  destruct HN as [H1 [H2 [H3 [H4 [H5 H6]]]]].
  rewrite H1, H2, H3, H4, H5, H6. split; reflexivity.
Qed.

Section RoundTrip.

Variable py_float : string -> option string.

Lemma estimateType_int_string (z : Z) :
  try_casters [nullify; boolify; int_caster; float_caster py_float] (str_of_Z z)
  = VInt z.
Proof.
  destruct (str_of_Z_first z) as [c [rest [E H]]].
  destruct (not_keyword c rest H) as [Hn Hb].
  cbn [try_casters]. rewrite E, Hn, Hb, <- E.
  unfold int_caster. now rewrite py_int_str_of_Z.
Qed.


(** What [float] returns is a float's [repr]: [float] reads it back
    as the same float, and it is no integer, boolean or [None]. *)
Hypothesis float_repr_fixed :
  forall s r, py_float s = Some r -> py_float r = Some r.
Hypothesis float_repr_not_other :
  forall s r, py_float s = Some r ->
    nullify r = Err ValueError /\ boolify r = Err ValueError /\ py_int r = None.

Lemma estimateType_casters_fixed (s : string) :
  estimateType py_float
    (try_casters [nullify; boolify; int_caster; float_caster py_float] s)
  = try_casters [nullify; boolify; int_caster; float_caster py_float] s.
Proof.
  cbn [try_casters].
  destruct (nullify s) as [v|e] eqn:En.
  { unfold nullify in En. destruct (_ || _)%bool; inversion En. reflexivity. }
  destruct (boolify s) as [v|e'] eqn:Eb.
  { unfold boolify in Eb.
    destruct (_ || _)%bool; [inversion Eb; reflexivity|].
    destruct (_ || _)%bool; inversion Eb. reflexivity. }
  unfold int_caster, float_caster.
  destruct (py_int s) as [z|] eqn:Ei.
  { apply estimateType_int_string. }
  destruct (py_float s) as [r|] eqn:Ef.
  { destruct (float_repr_not_other s r Ef) as [Hn [Hb Hi]].
    cbn [estimateType py_str py_repr try_casters]. rewrite Hn, Hb.
    unfold int_caster, float_caster. now rewrite Hi, (float_repr_fixed s r Ef). }
  cbn [estimateType py_str try_casters]. rewrite En, Eb.
  unfold int_caster, float_caster. now rewrite Ei, Ef.
Qed.

Lemma value_forall_ind (P : value -> Prop) :
  P VNone -> (forall b, P (VBool b)) -> (forall z, P (VInt z)) ->
  (forall r, P (VFloat r)) -> (forall s, P (VStr s)) ->
  (forall l, Forall P l -> P (VList l)) ->
  (forall d, P (VDict d)) ->
  forall v, P v.
Proof.
  intros HN HB HI HF HS HL HD. fix IH 1. intros [| b | z | r | s | l | d].
  - exact HN.
  - apply HB.
  - apply HI.
  - apply HF.
  - apply HS.
  - apply HL. induction l as [|x l IHl]; constructor; [apply IH | exact IHl].
  - apply HD.
Qed.

(** X14.  [estimateType] is idempotent: estimating what it returned
    changes nothing, so arguments that pass through [autocast] twice
    are the ones that passed once. *)
Theorem estimateType_idempotent (v : value) :
  estimateType py_float (estimateType py_float v) = estimateType py_float v.
Proof.
  induction v as [| b | z | r | s | l IH | d] using value_forall_ind;
    try apply estimateType_casters_fixed.
  destruct l as [|x [|y l]].
  - reflexivity.
  - inversion IH; subst. assumption.
  - change (estimateType py_float (VList (x :: y :: l)))
      with (VList (map (estimateType py_float) (x :: y :: l))).
    rewrite estimateType_elementwise by (simpl; discriminate).
    f_equal. rewrite map_map. apply map_ext_in.
    intros a Ha. rewrite Forall_forall in IH. now apply IH.
Qed.

End RoundTrip.


Lemma sample_float_fixed :
  forall s r, sample_float s = Some r -> sample_float r = Some r.
Proof.
  intros s r. unfold sample_float.
  destruct (_ || _)%bool; intros H; inversion H. reflexivity.
Defined.

Lemma sample_float_not_other :
  forall s r, sample_float s = Some r ->
    nullify r = Err ValueError /\ boolify r = Err ValueError /\ py_int r = None.
Proof.
  intros s r. unfold sample_float.
  destruct (_ || _)%bool; intros H; inversion H. repeat split.
Defined.

Lemma estimateType_idempotent_witness :
  estimateType sample_float
    (estimateType sample_float (VList [VList [VStr "1.50"; VStr " 7 "; VStr "x"]]))
  = VList [VFloat "1.5"; VInt 7; VStr "x"].
Proof.
  exact (estimateType_idempotent sample_float sample_float_fixed sample_float_not_other
           (VList [VList [VStr "1.50"; VStr " 7 "; VStr "x"]])).
Defined.

(** X15.  A function under [autocast] receives as many positional
    arguments as were given, and the keyword arguments under the same
    names in the same order, each replaced by its estimate. *)
Theorem autocast_keeps_arguments
    (py_float : string -> option string)
    (R : Type) (dFxn : list value -> dict -> R) (c : list value) (d : dict) :
  dict_wf d ->
  exists cp dp,
    autocast py_float dFxn c d = dFxn cp dp
    /\ cp = map (estimateType py_float) c
    /\ List.length cp = List.length c
    /\ keys dp = keys d
    /\ forall k, dict_get k dp = option_map (estimateType py_float) (dict_get k d).
Proof.
  intros Hwf. unfold autocast.
  set (pairs := map (fun ij => (fst ij, estimateType py_float (snd ij))) d).
  assert (Hkeys : keys pairs = keys d).
  { subst pairs. unfold keys. rewrite map_map. reflexivity. }
  assert (Hpairs : dict_of_pairs pairs = pairs).
  { apply dict_of_pairs_wf. unfold dict_wf. now rewrite Hkeys. }
  exists (map (estimateType py_float) c), pairs.
  rewrite Hpairs. repeat split.
  - apply length_map.
  - exact Hkeys.
  - intros k. subst pairs. clear.
    induction d as [|[k' v'] rest IH]; simpl; [reflexivity|].
    destruct (String.eqb k k'); [reflexivity | exact IH].
Qed.

Lemma autocast_keeps_arguments_witness :
  exists cp dp,
    autocast sample_float (fun cp dp => (cp, dp))
             [VStr "3"; VList [VStr "true"]] [("lr", VStr "1.50"); ("name", VStr "gnn")]
    = (cp, dp)
    /\ cp = [VInt 3; VBool true]
    /\ List.length cp = 2
    /\ keys dp = ["lr"; "name"]
    /\ forall k, dict_get k dp
                 = option_map (estimateType sample_float)
                              (dict_get k [("lr", VStr "1.50"); ("name", VStr "gnn")]).
Proof.
  exact (autocast_keeps_arguments sample_float _ (fun cp dp => (cp, dp))
           [VStr "3"; VList [VStr "true"]]
           [("lr", VStr "1.50"); ("name", VStr "gnn")]
           (keys_distinct_wf [("lr", VStr "1.50"); ("name", VStr "gnn")] eq_refl)).
Defined.

(** ** More on the submission *)









Section SubmissionMore.

Variable read_batch_yaml : value -> result value.
Variable sbatch : sbatch_call -> result value.

(** X17.  [project_config["serial"]] is read only when there is a
    previous handle: without the key a first submission goes through
    with no dependency, while a submission with a previous handle
    raises [KeyError] and the scheduler is not called. *)
Theorem submit_batch_serial_read_lazily
    (config project_config : dict) (path setup : value) (kw : dict)
    (lines : list string) (cmds : list value) (strs : list string) :
  dict_get "batch_config" config = Some path ->
  read_batch_yaml path = Ok (VDict kw) ->
  dict_get "serial" project_config = None ->
  dict_get "custom_batch_setup" project_config = Some setup ->
  join_items setup = Ok lines ->
  dict_get "command_line_setup" project_config = Some (VList cmds) ->
  mapM as_str cmds = Ok strs ->
  (exists call,
      submit_batch_call read_batch_yaml config project_config VNone = Ok call
      /\ dependency (client call) = None
      /\ submit_batch read_batch_yaml sbatch config project_config VNone
         = sbatch call)
  /\ (forall running_id, running_id <> VNone ->
        submit_batch read_batch_yaml sbatch config project_config running_id
        = Err KeyError).
Proof.
  intros Hpath Hyaml Hserial Hsetup Hlines Hcmds Hstrs.
  destruct (sbatch_setup_total config project_config cmds strs Hcmds Hstrs)
    as [s Hs].
  split.
  - unfold submit_batch, submit_batch_call, getitem.
    rewrite Hpath. cbn [bind]. rewrite Hyaml. cbn [bind as_mapping].
    unfold declare_dependency. cbn [is_None negb bind].
    rewrite Hsetup. cbn [bind]. rewrite Hlines. cbn [bind]. rewrite Hs. cbn [bind].
    eexists. repeat split.
  - intros running_id Hrid.
    unfold submit_batch, submit_batch_call, getitem.
    rewrite Hpath. cbn [bind]. rewrite Hyaml. cbn [bind as_mapping].
    unfold declare_dependency, getitem. rewrite Hserial.
    destruct (is_None running_id) eqn:E; [|reflexivity].
    apply is_None_spec in E. contradiction.
Qed.

End SubmissionMore.


Lemma submit_batch_serial_read_lazily_witness :
  (exists call,
      submit_batch_call sample_read_batch_yaml sample_run_setup
                        sample_project_no_serial VNone = Ok call
      /\ dependency (client call) = None
      /\ submit_batch sample_read_batch_yaml (fun _ => Ok (VInt 124))
                      sample_run_setup sample_project_no_serial VNone
         = (fun _ => Ok (VInt 124)) call)
  /\ (forall running_id, running_id <> VNone ->
        submit_batch sample_read_batch_yaml (fun _ => Ok (VInt 124))
                     sample_run_setup sample_project_no_serial running_id
        = Err KeyError).
Proof.
  exact (submit_batch_serial_read_lazily sample_read_batch_yaml (fun _ => Ok (VInt 124))
           sample_run_setup sample_project_no_serial
           (VStr "batch.yaml") (VList [VStr "module load cuda"])
           [("time", VStr "01:00:00"); ("gpus", VInt 1)]
           ["module load cuda"]
           [VStr "source env.sh"; VStr "cd work"] ["source env.sh"; "cd work"]
           eq_refl eq_refl eq_refl eq_refl eq_refl eq_refl eq_refl).
Defined.

(** ** Models, callbacks and training loggers *)

Lemma mapM_length {A B : Type} (f : A -> result B) (l : list A) (bs : list B) :
  mapM f l = Ok bs -> List.length bs = List.length l.
Proof.
  revert bs. induction l as [|a l IH]; simpl; intros bs H.
  - now inversion H.
  - destruct (f a); [|discriminate]. cbn [bind] in H.
    destruct (mapM f l) as [bs'|]; [|discriminate]. cbn [bind] in H.
    inversion H; subst. simpl. now rewrite (IH bs').
Qed.

Lemma mapM_first_error {A B : Type} (f : A -> result B)
    (pre post : list A) (x : A) (e : exn) :
  (forall a, In a pre -> exists b, f a = Ok b) ->
  f x = Err e ->
  mapM f (pre ++ x :: post) = Err e.
Proof.
  intros Hpre Hx. induction pre as [|a pre IH]; simpl.
  - now rewrite Hx.
  - destruct (Hpre a (or_introl eq_refl)) as [b Hb]. rewrite Hb. cbn [bind].
    rewrite IH; [reflexivity|]. intros a' Ha'. apply Hpre. simpl. tauto.
Qed.

Lemma filter_first {A : Type} (p : A -> bool) (pre post : list A) (x : A) :
  (forall a, In a pre -> p a = false) -> p x = true ->
  filter p (pre ++ x :: post) = x :: filter p post.
Proof.
  intros Hpre Hx. induction pre as [|a pre IH]; simpl.
  - now rewrite Hx.
  - rewrite (Hpre a) by (simpl; tauto). apply IH.
    intros a' Ha'. apply Hpre. simpl. tauto.
Qed.

Lemma filter_none {A : Type} (p : A -> bool) (l : list A) :
  (forall a, In a l -> p a = false) -> filter p l = [].
Proof.
  intros H. induction l as [|a l IH]; simpl; [reflexivity|].
  rewrite (H a) by (simpl; tauto). apply IH.
  intros a' Ha'. apply H. simpl. tauto.
Qed.

Section ModelProps.

Variable Obj : Type.
Variable listdir : string -> result (list string).
Variable import_module : string -> result (py_module Obj).
Variable instantiate : Obj -> result Obj.
Variable lr_monitor : Obj.
Variable WandbLogger : value -> value -> value -> result Obj.
Variable TensorBoardLogger : value -> value -> value -> result Obj.

(** X18.  A logger choice other than ["wandb"], ["tb"] and [None] (the
    string ["none"], say) makes [get_training_logger] raise
    [UnboundLocalError]: no branch binds the logger it returns. *)
Theorem get_training_logger_unknown_choice (model_config : dict) (choice : value) :
  dict_get "logger" model_config = Some choice ->
  eq_str choice "wandb" = false ->
  eq_str choice "tb" = false ->
  is_None choice = false ->
  snd (get_training_logger Obj WandbLogger TensorBoardLogger model_config)
  = Err UnboundLocalError.
Proof.
  intros Hl Hw Ht Hn. unfold get_training_logger.
  rewrite Hl. cbn [snd]. now rewrite Hw, Ht, Hn.
Qed.

(** X19.  [get_training_logger] leaves a [project] in the
    configuration it was given: the one that was there, or
    ["my_project"]; no other key changes, and a configuration that had
    a project is left as it was.  This holds whatever the logger
    choice, and it is that project which the W&B logger is built
    with. *)
Theorem get_training_logger_project (model_config : dict) (choice : value) :
  dict_get "logger" model_config = Some choice ->
  dict_get "project" (fst (get_training_logger Obj WandbLogger TensorBoardLogger
                                                model_config))
  = Some (match dict_get "project" model_config with
          | Some p => p
          | None => VStr "my_project"
          end)
  /\ (forall k, k <> "project" ->
        dict_get k (fst (get_training_logger Obj WandbLogger TensorBoardLogger
                                             model_config))
        = dict_get k model_config)
  /\ (dict_in "project" model_config = true ->
      fst (get_training_logger Obj WandbLogger TensorBoardLogger model_config)
      = model_config)
  /\ (forall save_dir id,
        eq_str choice "wandb" = true ->
        dict_get "artifact_library" model_config = Some save_dir ->
        dict_get "resume_id" model_config = Some id ->
        snd (get_training_logger Obj WandbLogger TensorBoardLogger model_config)
        = (logger <- WandbLogger
                       (match dict_get "project" model_config with
                        | Some p => p
                        | None => VStr "my_project"
                        end) save_dir id ;;
           Ok (Some logger))).
Proof.
  intros Hl. unfold get_training_logger. rewrite Hl. cbn [fst snd].
  unfold dict_in.
  destruct (dict_get "project" model_config) as [p|] eqn:Hp.
  - repeat split; try reflexivity; [exact Hp|].
    intros save_dir id Hw Ha Hr. unfold getitem. rewrite Hw, Hp, Ha, Hr. reflexivity.
  - repeat split.
    + apply dict_get_set_same.
    + intros k Hk. now apply dict_get_set_other.
    + discriminate.
    + intros save_dir id Hw Ha Hr. unfold getitem.
      rewrite Hw, dict_get_set_same.
      rewrite !dict_get_set_other by discriminate. rewrite Ha, Hr. reflexivity.
Qed.

(** X20.  Without callbacks (no [callbacks] key, [None], or an empty
    list) [callback_objects] looks nothing up and returns no callback,
    or the learning-rate monitor alone when it is asked for; it still
    needs [set] and [model_library] and raises [KeyError] without
    them. *)
Theorem callback_objects_without_callbacks (model_config : dict) (lr_logger : bool) :
  handle_config_cases
    (match dict_get "callbacks" model_config with
     | Some callbacks => callbacks
     | None => VNone
     end) = [] ->
  (forall model_set model_library,
      dict_get "set" model_config = Some model_set ->
      dict_get "model_library" model_config = Some model_library ->
      callback_objects Obj listdir import_module instantiate lr_monitor
                       model_config lr_logger
      = Ok (if lr_logger then [lr_monitor] else []))
  /\ (dict_get "set" model_config = None ->
      callback_objects Obj listdir import_module instantiate lr_monitor
                       model_config lr_logger
      = Err KeyError)
  /\ (forall model_set,
      dict_get "set" model_config = Some model_set ->
      dict_get "model_library" model_config = None ->
      callback_objects Obj listdir import_module instantiate lr_monitor
                       model_config lr_logger
      = Err KeyError).
Proof.
  intros Hnone. unfold callback_objects, getitem. rewrite Hnone. repeat split.
  - intros s l Hs Hl. rewrite Hs, Hl. cbn [bind mapM]. now destruct lr_logger.
  - intros Hs. now rewrite Hs.
  - intros s Hs Hl. now rewrite Hs, Hl.
Qed.

(** X21.  What [callback_objects] returns has one object per
    configured callback, in their order, and then the learning-rate
    monitor when it is asked for: a single name counts as one
    callback. *)
Theorem callback_objects_shape
    (model_config : dict) (lr_logger : bool) (objs : list Obj) :
  callback_objects Obj listdir import_module instantiate lr_monitor
                   model_config lr_logger = Ok objs ->
  exists user,
    objs = user ++ (if lr_logger then [lr_monitor] else [])
    /\ List.length user
       = List.length (handle_config_cases
                        (match dict_get "callbacks" model_config with
                         | Some callbacks => callbacks
                         | None => VNone
                         end)).
Proof.
  unfold callback_objects. intros H.
  destruct (getitem model_config "set") as [s|]; [|discriminate]. cbn [bind] in H.
  destruct (getitem model_config "model_library") as [l|]; [|discriminate].
  cbn [bind] in H.
  match type of H with
  | bind (mapM ?f ?cbs) _ = _ => destruct (mapM f cbs) as [user|] eqn:E
  end; [|discriminate].
  cbn [bind] in H. exists user. split.
  - destruct lr_logger; inversion H; [reflexivity | now rewrite app_nil_r].
  - exact (mapM_length _ _ _ E).
Qed.

(** X22.  A name that [find_model] does not find is an error in both
    callers, but not the same one: [build_model] raises [ValueError],
    [callback_objects] calls the [None] it got and raises
    [TypeError]. *)
Theorem not_found_errors
    (model_config : dict) (lr_logger : bool) (model_set model_library : value) :
  dict_get "set" model_config = Some model_set ->
  dict_get "model_library" model_config = Some model_library ->
  (forall name,
      dict_get "name" model_config = Some name ->
      find_model Obj listdir import_module model_set name model_library = Ok None ->
      build_model Obj listdir import_module model_config = Err ValueError)
  /\ (forall callback rest,
      handle_config_cases
        (match dict_get "callbacks" model_config with
         | Some callbacks => callbacks
         | None => VNone
         end) = callback :: rest ->
      find_model Obj listdir import_module model_set callback model_library = Ok None ->
      callback_objects Obj listdir import_module instantiate lr_monitor
                       model_config lr_logger
      = Err TypeError).
Proof.
  intros Hs Hl. split.
  - intros name Hn Hfind. unfold build_model, getitem.
    rewrite Hs, Hn, Hl. cbn [bind]. now rewrite Hfind.
  - intros callback rest Hcb Hfind. unfold callback_objects, getitem.
    rewrite Hcb, Hs, Hl. cbn [bind mapM]. now rewrite Hfind.
Qed.

Lemma find_model_unfold (set lib : string) (model_name : value) (listing : list string) :
  listdir (os_path_join lib [set; "Models"]) = Ok listing ->
  find_model Obj listdir import_module (VStr set) model_name (VStr lib)
  = (imported <-
       mapM (fun module => import_module (str_join "." [set; "Models"; module]))
            (map splitext_root (filter (fun name => str_endswith name ".py") listing)) ;;
     match filter (fun m => value_in model_name (exported_names Obj m)) imported with
     | [] => Ok None
     | first :: _ =>
         model_class <- module_getattr Obj first model_name ;; Ok (Some model_class)
     end).
Proof.
  intros Hls. unfold find_model. cbn [as_str bind]. now rewrite Hls.
Qed.

(** X23.  [find_model] imports every [.py] file of the directory
    before it looks for the name: one module that fails to import
    makes the lookup fail with that error, whatever the name and
    whatever the modules before it export. *)
Theorem find_model_import_failure
    (set lib : string) (listing pre post : list string) (module : string) (e : exn) :
  listdir (os_path_join lib [set; "Models"]) = Ok listing ->
  map splitext_root (filter (fun name => str_endswith name ".py") listing)
  = pre ++ module :: post ->
  (forall m, In m pre ->
     exists imported, import_module (str_join "." [set; "Models"; m]) = Ok imported) ->
  import_module (str_join "." [set; "Models"; module]) = Err e ->
  forall model_name,
    find_model Obj listdir import_module (VStr set) model_name (VStr lib) = Err e.
Proof.
  intros Hls Hlist Hpre Hfail model_name.
  rewrite (find_model_unfold set lib model_name listing Hls), Hlist.
  now rewrite (mapM_first_error _ pre post module e Hpre Hfail).
Qed.

(** X24.  When several modules export the name, the class comes from
    the first of them in the order of the directory listing. *)
Theorem find_model_first_module
    (set lib name : string) (listing : list string)
    (before after : list (py_module Obj)) (m : py_module Obj) (cls : Obj) :
  listdir (os_path_join lib [set; "Models"]) = Ok listing ->
  mapM (fun module => import_module (str_join "." [set; "Models"; module]))
       (map splitext_root (filter (fun name => str_endswith name ".py") listing))
  = Ok (before ++ m :: after) ->
  (forall m', In m' before -> mem name (exported_names Obj m') = false) ->
  mem name (exported_names Obj m) = true ->
  module_getattr Obj m (VStr name) = Ok cls ->
  find_model Obj listdir import_module (VStr set) (VStr name) (VStr lib)
  = Ok (Some cls).
Proof.
  intros Hls Himp Hbefore Hm Hattr.
  rewrite (find_model_unfold set lib (VStr name) listing Hls), Himp. cbn [bind].
  rewrite (filter_first _ before after m); [|exact Hbefore|exact Hm].
  now rewrite Hattr.
Qed.

(** X25.  In modules without [__all__] a name that starts with an
    underscore is never found, even if a module defines it. *)
Theorem find_model_private_name
    (set lib name : string) (listing : list string) (mods : list (py_module Obj)) :
  listdir (os_path_join lib [set; "Models"]) = Ok listing ->
  mapM (fun module => import_module (str_join "." [set; "Models"; module]))
       (map splitext_root (filter (fun name => str_endswith name ".py") listing))
  = Ok mods ->
  (forall m, In m mods -> mod_all m = None) ->
  str_startswith name "_" = true ->
  find_model Obj listdir import_module (VStr set) (VStr name) (VStr lib) = Ok None.
Proof.
  intros Hls Himp Hall Hpriv.
  rewrite (find_model_unfold set lib (VStr name) listing Hls), Himp. cbn [bind].
  rewrite filter_none; [reflexivity|].
  intros m Hm. unfold value_in, exported_names. rewrite (Hall m Hm).
  apply mem_false. unfold public_names. intros Hin.
  apply filter_In in Hin. destruct Hin as [_ Hpub]. now rewrite Hpriv in Hpub.
Qed.

End ModelProps.

(** X26.  [handle_config_cases] and the axis of the sweep wrap values
    in the same way but for [None]: [None] is no callback at all, and
    one value of a sweep.  Normalizing twice changes nothing. *)
Theorem handle_config_cases_normalizes (v : value) :
  (v <> VNone -> handle_config_cases v = axis v)
  /\ handle_config_cases VNone = []
  /\ axis VNone = [VNone]
  /\ handle_config_cases (VList (handle_config_cases v)) = handle_config_cases v.
Proof.
  destruct v; repeat split; intros; try reflexivity; congruence.
Qed.

Lemma get_training_logger_unknown_choice_witness :
  snd (get_training_logger string (sample_logger_class "WandbLogger")
                           (sample_logger_class "TensorBoardLogger")
                           sample_model_config)
  = Err UnboundLocalError.
Proof.
  exact (get_training_logger_unknown_choice string
           (sample_logger_class "WandbLogger") (sample_logger_class "TensorBoardLogger")
           sample_model_config (VStr "none") eq_refl eq_refl eq_refl eq_refl).
Defined.

Lemma get_training_logger_project_witness :
  dict_get "project"
    (fst (get_training_logger string (sample_logger_class "WandbLogger")
                              (sample_logger_class "TensorBoardLogger")
                              sample_wandb_config))
  = Some (VStr "my_project")
  /\ snd (get_training_logger string (sample_logger_class "WandbLogger")
                              (sample_logger_class "TensorBoardLogger")
                              sample_wandb_config)
     = Ok (Some "WandbLogger('my_project', '/artifacts', None)").
Proof.
  destruct (get_training_logger_project string
              (sample_logger_class "WandbLogger") (sample_logger_class "TensorBoardLogger")
              sample_wandb_config (VStr "wandb") eq_refl)
    as [Hp [_ [_ Hw]]].
  split; [exact Hp|].
  exact (Hw (VStr "/artifacts") VNone eq_refl eq_refl eq_refl).
Defined.

Lemma callback_objects_without_callbacks_witness :
  callback_objects string sample_listdir sample_import sample_instantiate "lr monitor"
                   [("set", VStr "gnn"); ("model_library", VStr "/models")] true
  = Ok ["lr monitor"].
Proof.
  exact (proj1 (callback_objects_without_callbacks string
                  sample_listdir sample_import sample_instantiate "lr monitor"
                  [("set", VStr "gnn"); ("model_library", VStr "/models")] true eq_refl)
               (VStr "gnn") (VStr "/models") eq_refl eq_refl).
Defined.

Lemma callback_objects_shape_witness :
  callback_objects string sample_listdir sample_import sample_instantiate "lr monitor"
                   sample_model_config true
  = Ok ["instance of class EarlyStop"; "lr monitor"]
  /\ exists user,
      ["instance of class EarlyStop"; "lr monitor"] = user ++ ["lr monitor"]
      /\ List.length user = 1.
Proof.
  split; [reflexivity|].
  exact (callback_objects_shape string sample_listdir sample_import sample_instantiate
           "lr monitor" sample_model_config true
           ["instance of class EarlyStop"; "lr monitor"] eq_refl).
Defined.

Lemma not_found_errors_witness :
  build_model string sample_listdir sample_import sample_missing_config = Err ValueError
  /\ callback_objects string sample_listdir sample_import sample_instantiate "lr monitor"
                      sample_missing_config false
     = Err TypeError.
Proof.
  destruct (not_found_errors string sample_listdir sample_import sample_instantiate
              "lr monitor" sample_missing_config false (VStr "gnn") (VStr "/models")
              eq_refl eq_refl) as [Hb Hc].
  split.
  - exact (Hb (VStr "Missing") eq_refl eq_refl).
  - exact (Hc (VStr "Missing") [VStr "EarlyStop"] eq_refl eq_refl).
Defined.

Lemma find_model_import_failure_witness :
  find_model string sample_listdir sample_import (VStr "bad") (VStr "Net") (VStr "/models")
  = Err (Raise "ModuleNotFoundError").
Proof.
  assert (Hpre : forall m, In m ["net"] ->
            exists imported,
              sample_import (str_join "." ["bad"; "Models"; m]) = Ok imported).
  { intros m [<-|[]]. exists sample_net. reflexivity. }
  exact (find_model_import_failure string sample_listdir sample_import
           "bad" "/models" ["net.py"; "broken.py"] ["net"] [] "broken"
           (Raise "ModuleNotFoundError") eq_refl eq_refl Hpre eq_refl (VStr "Net")).
Defined.

Lemma find_model_first_module_witness :
  find_model string sample_listdir sample_import (VStr "dup") (VStr "Net") (VStr "/models")
  = Ok (Some "class Net").
Proof.
  assert (Hbefore : forall m' : py_module string,
             In m' [] -> mem "Net" (exported_names string m') = false)
    by (intros m' []).
  exact (find_model_first_module string sample_listdir sample_import
           "dup" "/models" "Net" ["a.py"; "b.py"] [] [sample_net_b] sample_net
           "class Net" eq_refl eq_refl Hbefore eq_refl eq_refl).
Defined.

Lemma find_model_private_name_witness :
  find_model string sample_listdir sample_import
             (VStr "cb") (VStr "_helper") (VStr "/models")
  = Ok None.
Proof.
  assert (Hall : forall m, In m [sample_callbacks] -> mod_all m = None).
  { intros m [<-|[]]. reflexivity. }
  exact (find_model_private_name string sample_listdir sample_import
           "cb" "/models" "_helper" ["callbacks.py"] [sample_callbacks]
           eq_refl eq_refl Hall eq_refl).
Defined.

Lemma handle_config_cases_normalizes_witness :
  VStr "EarlyStop" <> VNone
  /\ handle_config_cases (VStr "EarlyStop") = axis (VStr "EarlyStop").
Proof.
  assert (H : VStr "EarlyStop" <> VNone) by discriminate.
  split; [exact H|].
  exact (proj1 (handle_config_cases_normalizes (VStr "EarlyStop")) H).
Defined.

(** ** Configuration of the logging system *)

Lemma handler_eqb_refl (h : handler) : handler_eqb h h = true.
Proof.
  unfold handler_eqb. destruct (h_file h) as [p|];
    [rewrite String.eqb_refl|]; simpl; apply Nat.eqb_refl.
Qed.

(** The loop over a copy of the handlers removes them all. *)
Lemma remove_all_handlers (hs : list handler) :
  fold_left (fun acc h => remove_handler h acc) hs hs = [].
Proof.
  induction hs as [|h hs IH]; simpl; [reflexivity|].
  now rewrite handler_eqb_refl.
Qed.

Lemma get_set_logger_level (n m : string) (l : nat) (levels : list (string * nat)) :
  get_logger_level n (set_logger_level m l levels)
  = if String.eqb n m then Some l else get_logger_level n levels.
Proof.
  induction levels as [|[k x] rest IH]; simpl.
  - destruct (String.eqb n m); reflexivity.
  - destruct (String.eqb m k) eqn:E; simpl.
    + apply String.eqb_eq in E. subst k. destruct (String.eqb n m); reflexivity.
    + rewrite IH. destruct (String.eqb n k) eqn:E'; [|reflexivity].
      apply String.eqb_eq in E'. subst k.
      rewrite String.eqb_sym in E. now rewrite E.
Qed.

Lemma set_logger_level_same (n : string) (l : nat) (levels : list (string * nat)) :
  get_logger_level n levels = Some l -> set_logger_level n l levels = levels.
Proof.
  induction levels as [|[k x] rest IH]; simpl; [discriminate|].
  destruct (String.eqb n k) eqn:E.
  - apply String.eqb_eq in E. subst k. intros H. now inversion H.
  - intros H. now rewrite IH.
Qed.

Lemma get_after_sets (names : list string) (l : nat) :
  forall (levels : list (string * nat)) (n : string),
    In n names \/ get_logger_level n levels = Some l ->
    get_logger_level n (fold_left (fun acc m => set_logger_level m l acc) names levels)
    = Some l.
Proof.
  induction names as [|m names IH]; intros levels n H; simpl.
  - destruct H as [[]|H]. exact H.
  - apply IH. rewrite get_set_logger_level.
    destruct (String.eqb n m) eqn:E; [now right|].
    apply String.eqb_neq in E.
    destruct H as [[Hm|Hin]|H]; [congruence | now left | now right].
Qed.

Lemma sets_are_noop (names : list string) (l : nat) :
  forall levels : list (string * nat),
    (forall n, In n names -> get_logger_level n levels = Some l) ->
    fold_left (fun acc m => set_logger_level m l acc) names levels = levels.
Proof.
  induction names as [|m names IH]; intros levels H; simpl; [reflexivity|].
  rewrite set_logger_level_same by (apply H; simpl; tauto).
  apply IH. intros n Hn. apply H. simpl. tauto.
Qed.

Section LoggingProps.

Variable open_log_file : string -> bool.

Lemma configure_logging_root
    (log_dir : option string) (verbose : bool) (st : log_state) :
  root_handlers (configure_logging open_log_file log_dir verbose st)
  = {| h_file := None; h_level := if verbose then DEBUG else WARNING |}
    :: match log_dir with
       | Some path =>
           if negb (String.eqb path "") && open_log_file path
           then [{| h_file := Some path; h_level := INFO |}]
           else []
       | None => []
       end
  /\ root_level (configure_logging open_log_file log_dir verbose st)
     = (if verbose then DEBUG else WARNING).
Proof.
  unfold configure_logging. cbn [root_handlers root_level].
  rewrite remove_all_handlers. split; [|reflexivity].
  destruct log_dir as [path|]; [|reflexivity].
  destruct (negb (String.eqb path "") && open_log_file path); reflexivity.
Qed.

(** X27.  Whatever handlers the root logger had, after
    [configure_logging] it has the new console handler, at the level
    of the verbosity, and after it the file handler, at level INFO,
    when a log file was asked for and could be opened: nothing else,
    so handlers never pile up and a log file that cannot be opened
    leaves the console alone. *)
Theorem configure_logging_handlers
    (log_dir : option string) (verbose : bool) (st : log_state) :
  root_handlers (configure_logging open_log_file log_dir verbose st)
  = {| h_file := None; h_level := if verbose then DEBUG else WARNING |}
    :: match log_dir with
       | Some path =>
           if negb (String.eqb path "") && open_log_file path
           then [{| h_file := Some path; h_level := INFO |}]
           else []
       | None => []
       end
  /\ List.length (root_handlers (configure_logging open_log_file log_dir verbose st))
     <= 2.
Proof.
  destruct (configure_logging_root log_dir verbose st) as [H _].
  split; [exact H|]. rewrite H.
  destruct log_dir as [path|]; [|simpl; lia].
  destruct (negb (String.eqb path "") && open_log_file path); simpl; lia.
Qed.

(** X28.  Configuring twice with the same arguments is configuring
    once; and the loggers of Lightning, matplotlib and PIL are at
    WARNING afterwards, verbose or not. *)
Theorem configure_logging_idempotent
    (log_dir : option string) (verbose : bool) (st : log_state) :
  configure_logging open_log_file log_dir verbose
    (configure_logging open_log_file log_dir verbose st)
  = configure_logging open_log_file log_dir verbose st
  /\ forall name,
       In name ["lightning.pytorch"; "pytorch_lightning"; "matplotlib"; "PIL"] ->
       get_logger_level name
         (logger_levels (configure_logging open_log_file log_dir verbose st))
       = Some WARNING.
Proof.
  assert (Hlevels : forall name,
             In name ["lightning.pytorch"; "pytorch_lightning"; "matplotlib"; "PIL"] ->
             get_logger_level name
               (logger_levels (configure_logging open_log_file log_dir verbose st))
             = Some WARNING).
  { intros name Hin. unfold configure_logging. cbn [logger_levels].
    apply get_after_sets. now left. }
  split; [|exact Hlevels].
  unfold configure_logging at 1.
  rewrite remove_all_handlers.
  rewrite (sets_are_noop _ WARNING _ Hlevels).
  unfold configure_logging. rewrite remove_all_handlers. reflexivity.
Qed.

(** X29.  With a log file and without [verbose], a record of level
    INFO logged on the root logger is written by no handler, not even
    by the file handler whose level is INFO: the root logger stops it.
    Records of level WARNING are written by both handlers.  With
    [verbose], DEBUG records reach the console only and INFO records
    reach both. *)
Theorem configure_logging_emission (path : string) (st : log_state) :
  path <> "" ->
  open_log_file path = true ->
  (forall h,
      In h (root_handlers (configure_logging open_log_file (Some path) false st)) ->
      emitted (configure_logging open_log_file (Some path) false st) INFO h = false
      /\ emitted (configure_logging open_log_file (Some path) false st) WARNING h = true)
  /\ (forall h,
      In h (root_handlers (configure_logging open_log_file (Some path) true st)) ->
      emitted (configure_logging open_log_file (Some path) true st) INFO h = true
      /\ emitted (configure_logging open_log_file (Some path) true st) DEBUG h
         = match h_file h with None => true | Some _ => false end).
Proof.
  intros Hne Hopen.
  apply String.eqb_neq in Hne.
  split; intros h Hin;
    destruct (configure_logging_root (Some path) false st) as [Hf Hlf];
    destruct (configure_logging_root (Some path) true st) as [Ht Hlt];
    rewrite Hne, Hopen in Hf, Ht; cbn [negb andb] in Hf, Ht;
    unfold emitted.
  - rewrite Hlf. rewrite Hf in Hin.
    destruct Hin as [<-|[<-|[]]]; split; reflexivity.
  - rewrite Hlt. rewrite Ht in Hin.
    destruct Hin as [<-|[<-|[]]]; split; reflexivity.
Qed.

End LoggingProps.

Lemma configure_logging_idempotent_witness :
  In "matplotlib" ["lightning.pytorch"; "pytorch_lightning"; "matplotlib"; "PIL"]
  /\ get_logger_level "matplotlib"
       (logger_levels (configure_logging (fun _ => true) (Some "logs/run.log") true
                                         sample_log_state))
     = Some WARNING.
Proof.
  assert (Hin : In "matplotlib"
                   ["lightning.pytorch"; "pytorch_lightning"; "matplotlib"; "PIL"])
    by (simpl; tauto).
  split; [exact Hin|].
  exact (proj2 (configure_logging_idempotent (fun _ => true) (Some "logs/run.log") true
                  sample_log_state) "matplotlib" Hin).
Defined.

Lemma configure_logging_emission_witness :
  "logs/run.log" <> ""
  /\ forall h,
      In h (root_handlers
              (configure_logging (fun _ => true) (Some "logs/run.log") false
                                 sample_log_state)) ->
      emitted (configure_logging (fun _ => true) (Some "logs/run.log") false
                                 sample_log_state) INFO h = false
      /\ emitted (configure_logging (fun _ => true) (Some "logs/run.log") false
                                    sample_log_state) WARNING h = true.
Proof.
  assert (Hne : "logs/run.log" <> "") by discriminate.
  split; [exact Hne|].
  exact (proj1 (configure_logging_emission (fun _ => true) "logs/run.log"
                  sample_log_state Hne eq_refl)).
Defined.
